(** * The CIFAR-10 demonstration notebook, examples/colossal_cifar_demo.ipynb

    The notebook is a sequence of code cells that import two external
    packages and call into them.  Some of its properties are about how the
    code is written (no handler, no branch, literal arguments), the others
    about what it does when run.  Its cells are therefore transcribed as
    syntax trees of the Python fragment they are written in, and a
    definitional interpreter, explicit state passing under a small outcome
    monad, runs them against a model of the external world, which decides what
    every import and every call into a package returns or raises.  What the
    notebook does is then a statement about the events the interpreter emits
    and the outcome it reaches. *)

From Stdlib Require Import String Ascii List ZArith Bool Arith Lia Permutation.
Import ListNotations.
Open Scope string_scope.
Set Warnings "-register-all".

(** ** Syntax of the Python fragment *)

Inductive binop := Add | Sub | Mul.

Inductive expr :=
| ENone
| EBool (b : bool)
| EInt (n : Z)
| EFloat (tok : string)            (* a float literal, kept as its source token *)
| EStr (s : string)
| EName (x : string)
| EAttr (e : expr) (a : string)
| ECall (f : expr) (args : list expr) (kwargs : list (string * expr))
| EList (es : list expr)
| EBinOp (op : binop) (l r : expr)
| EIfExp (c t e : expr).           (* t if c else e *)

Inductive stmt :=
| SShell (cmd : string)                                   (* !cmd *)
| SImport (module : list string) (alias : option string)  (* import a.b [as x] *)
| SFromImport (module : list string) (names : list string)
| SAssign (x : string) (e : expr)
| SAssignAttr (obj : expr) (a : string) (e : expr)        (* obj.a = e *)
| SExpr (e : expr)
| SReturn (e : expr)
| SFuncDef (name : string) (params : list string) (body : list stmt)
| SClassDef (name : string) (bases : list expr) (body : list stmt)
| SIf (c : expr) (body orelse : list stmt)
| SWhile (c : expr) (body : list stmt)
| SFor (x : string) (iter : expr) (body : list stmt)
| STry (body : list stmt) (exc : option string) (handler : list stmt).

(** A notebook is a list of cells; a code cell keeps the outputs recorded when
    it was last run.  The notebook format has four kinds of output; of a
    stream, the name and the text are kept, one string per line. *)
Inductive stream := Stdout | Stderr.

Inductive output :=
| Stream (name : stream) (text : list string)
| DisplayData
| ExecuteResult
| ErrorOutput (ename evalue : string).

Inductive cell :=
| Markdown (source : list string)
| Code (source : list stmt) (outputs : list output).

(** ** Values, events and outcomes *)

Inductive value :=
| VNone
| VBool (b : bool)
| VInt (n : Z)
| VFloat (tok : string)
| VStr (s : string)
| VList (vs : list value)
| VDict (kvs : list (string * value))
| VExt (path : list string)          (* a module, class or function of a package *)
| VObj (h : nat)                     (* an object made by package code *)
| VBuiltin (name : string)
| VFunc (name : string)              (* a function defined by the program *)
| VClass (name : string)             (* a class defined by the program *)
| VInst (cls : string) (id : nat)    (* an instance of such a class *)
| VMeth (recv : value) (name : string)        (* a method bound in package code *)
| VUMeth (recv : value) (cls name : string)   (* a method bound in the program *)
| VSuper (recv : value).

(** What leaves the program: a shell magic, an import, a call into a package. *)
Inductive event :=
| Shell (cmd : string)
| Import (module : list string)
| Call (callee : value) (args : list value) (kwargs : list (string * value)).

Inductive exn := Exn (kind msg : string).

Inductive outcome (A : Type) :=
| Ok (a : A)
| Raise (e : exn)
| Unsupported (why : string)         (* outside the modelled fragment *)
| OutOfFuel.
Arguments Ok {A} a.
Arguments Raise {A} e.
Arguments Unsupported {A} why.
Arguments OutOfFuel {A}.

Definition env := list (string * value).

Fixpoint lookup {A : Type} (x : string) (r : list (string * A)) : option A :=
  match r with
  | [] => None
  | (y, v) :: r' => if String.eqb x y then Some v else lookup x r'
  end.

Record func_def := mkFunc { fn_params : list string; fn_body : list stmt }.

Record class_def := mkClass {
  cd_bases : list value;
  cd_methods : list (string * func_def) }.

Fixpoint heap_get (id : nat) (a : string) (h : list (nat * string * value)) : option value :=
  match h with
  | [] => None
  | (i, b, v) :: h' => if Nat.eqb id i && String.eqb a b then Some v else heap_get id a h'
  end.

(** The truth value of a condition; that of a float is not read off its token. *)
Definition truthy (v : value) : option bool :=
  match v with
  | VNone => Some false
  | VBool b => Some b
  | VInt n => Some (negb (Z.eqb n 0))
  | VStr s => Some (negb (String.eqb s ""))
  | VList vs => Some (match vs with [] => false | _ :: _ => true end)
  | VDict kvs => Some (match kvs with [] => false | _ :: _ => true end)
  | VFloat _ => None
  | _ => Some true
  end.

Definition builtins : list string := ["dict"; "super"].

(** ** The interpreter, over a model of the external world *)

Section Interpreter.
Context {W : Type}.

(** [ext w n ev]: the world in state [w] answers the [n]-th event [ev] with
    a value or an exception, and moves to a new state. *)
Variable ext : W -> nat -> event -> W * (exn + value).

Record state := mkState {
  globals : env;
  frame : option env;                       (* locals of the running function *)
  heap : list (nat * string * value);       (* attributes of instances *)
  next_id : nat;
  funcs : list (string * func_def);
  classes : list (string * class_def);
  trace : list event;
  world : W }.

Definition M (A : Type) := state -> outcome A * state.

Definition ret {A} (a : A) : M A := fun s => (Ok a, s).
Definition raise {A} (kind msg : string) : M A := fun s => (Raise (Exn kind msg), s).
Definition unsupported {A} (why : string) : M A := fun s => (Unsupported why, s).
Definition out_of_fuel {A} : M A := fun s => (OutOfFuel, s).

Definition bind {A B} (m : M A) (k : A -> M B) : M B :=
  fun s =>
    match m s with
    | (Ok a, s') => k a s'
    | (Raise e, s') => (Raise e, s')
    | (Unsupported w, s') => (Unsupported w, s')
    | (OutOfFuel, s') => (OutOfFuel, s')
    end.

Notation "x <- m ;; k" := (bind m (fun x => k))
  (at level 61, m at next level, right associativity).
Notation "m ;;; k" := (bind m (fun _ => k))
  (at level 61, right associativity).

Fixpoint mapM {A B} (f : A -> M B) (l : list A) : M (list B) :=
  match l with
  | [] => ret []
  | a :: l' => b <- f a ;; bs <- mapM f l' ;; ret (b :: bs)
  end.

Definition get : M state := fun s => (Ok s, s).

Definition test (v : value) : M bool :=
  match truthy v with
  | Some b => ret b
  | None => unsupported "truth value of a float"
  end.

Definition set_frame (fr : option env) : M unit :=
  fun s => (Ok tt, mkState (globals s) fr (heap s) (next_id s) (funcs s) (classes s) (trace s) (world s)).

(** An event goes to the world; its answer is the result of the step. *)
Definition emit (ev : event) : M value :=
  fun s =>
    let '(w', r) := ext (world s) (length (trace s)) ev in
    let s' := mkState (globals s) (frame s) (heap s) (next_id s) (funcs s) (classes s)
                      (trace s ++ [ev]) w' in
    match r with
    | inl e => (Raise e, s')
    | inr v => (Ok v, s')
    end.

Definition load (x : string) : M value :=
  fun s =>
    match (match frame s with Some fr => lookup x fr | None => None end) with
    | Some v => (Ok v, s)
    | None =>
      match lookup x (globals s) with
      | Some v => (Ok v, s)
      | None =>
        if existsb (String.eqb x) builtins then (Ok (VBuiltin x), s)
        else (Raise (Exn "NameError" x), s)
      end
    end.

Definition store (x : string) (v : value) : M unit :=
  fun s =>
    match frame s with
    | Some fr =>
      (Ok tt, mkState (globals s) (Some ((x, v) :: fr)) (heap s) (next_id s) (funcs s)
                      (classes s) (trace s) (world s))
    | None =>
      (Ok tt, mkState ((x, v) :: globals s) None (heap s) (next_id s) (funcs s)
                      (classes s) (trace s) (world s))
    end.

Definition getattr (v : value) (a : string) : M value :=
  match v with
  | VExt p => ret (VExt (p ++ [a]))
  | VObj h => ret (VMeth (VObj h) a)
  | VSuper r => ret (VMeth (VSuper r) a)
  | VInst cn id =>
    fun s =>
      match heap_get id a (heap s) with
      | Some x => (Ok x, s)
      | None =>
        match lookup cn (classes s) with
        | None => (Unsupported "instance of an unknown class", s)
        | Some cd =>
          match lookup a (cd_methods cd) with
          | Some _ => (Ok (VUMeth (VInst cn id) cn a), s)
          | None =>
            match cd_bases cd with
            | [] => (Raise (Exn "AttributeError" a), s)
            | _ :: _ => (Ok (VMeth (VInst cn id) a), s)   (* inherited from a package class *)
            end
          end
        end
      end
  | _ => unsupported "attribute of a plain value"
  end.

Definition setattr (o : value) (a : string) (v : value) : M unit :=
  match o with
  | VInst _ id =>
    fun s => (Ok tt, mkState (globals s) (frame s) ((id, a, v) :: heap s) (next_id s)
                             (funcs s) (classes s) (trace s) (world s))
  | _ => unsupported "attribute assignment on a value that is not an instance"
  end.

Definition arith (op : binop) (a b : value) : M value :=
  match a, b with
  | VInt x, VInt y =>
    ret (VInt (match op with Add => x + y | Sub => x - y | Mul => x * y end)%Z)
  | _, _ => unsupported "arithmetic on values that are not integers"
  end.

Definition builtin (name : string) (vs : list value) (kvs : list (string * value)) : M value :=
  if String.eqb name "dict" then
    match vs with
    | [] => ret (VDict kvs)
    | _ => unsupported "dict with positional arguments"
    end
  else if String.eqb name "super" then
    match vs, kvs with
    | [], [] =>
      fun s =>
        match (match frame s with Some fr => lookup "self" fr | None => None end) with
        | Some r => (Ok (VSuper r), s)
        | None => (Raise (Exn "RuntimeError" "super(): no arguments"), s)
        end
    | _, _ => unsupported "super with arguments"
    end
  else unsupported "unknown builtin".

(** Parameters left after the positional arguments take the keyword
    arguments of their names; every parameter is bound, and every argument. *)
Fixpoint bind_keywords (ps : list string) (kvs : list (string * value)) : option env :=
  match ps with
  | [] => Some []
  | p :: ps' =>
    match lookup p kvs, bind_keywords ps' kvs with
    | Some v, Some r => Some ((p, v) :: r)
    | _, _ => None
    end
  end.

Fixpoint bind_params (ps : list string) (vs : list value) (kvs : list (string * value))
  : option env :=
  match ps, vs with
  | _, [] => if Nat.eqb (length ps) (length kvs) then bind_keywords ps kvs else None
  | [], _ :: _ => None
  | p :: ps', v :: vs' =>
    match bind_params ps' vs' kvs with
    | Some r => Some ((p, v) :: r)
    | None => None
    end
  end.

(** Running a function body in a fresh frame; the caller's frame comes back
    when the body ends normally. *)
Definition invoke (run_body : list stmt -> M (option value)) (fd : func_def)
           (vs : list value) (kvs : list (string * value)) : M value :=
  match bind_params (fn_params fd) vs kvs with
  | None => raise "TypeError" "arguments do not match the parameters"
  | Some fr =>
    s <- get ;;
    set_frame (Some fr) ;;;
    r <- run_body (fn_body fd) ;;
    set_frame (frame s) ;;;
    ret (match r with Some v => v | None => VNone end)
  end.

Definition alloc (cn : string) : M value :=
  fun s => (Ok (VInst cn (next_id s)),
            mkState (globals s) (frame s) (heap s) (S (next_id s)) (funcs s) (classes s)
                    (trace s) (world s)).

Definition instantiate (run_body : list stmt -> M (option value)) (cn : string)
           (vs : list value) (kvs : list (string * value)) : M value :=
  s <- get ;;
  match lookup cn (classes s) with
  | None => unsupported "unknown class"
  | Some cd =>
    o <- alloc cn ;;
    match lookup "__init__" (cd_methods cd) with
    | Some fd => invoke run_body fd (o :: vs) kvs ;;; ret o
    | None =>
      match cd_bases cd with
      | [] => ret o
      | _ :: _ => emit (Call (VMeth (VSuper o) "__init__") vs kvs) ;;; ret o
      end
    end
  end.

Fixpoint methods_of (body : list stmt) : option (list (string * func_def)) :=
  match body with
  | [] => Some []
  | SFuncDef n ps b :: rest =>
    match methods_of rest with
    | Some ms => Some ((n, mkFunc ps b) :: ms)
    | None => None
    end
  | _ :: _ => None
  end.

Definition def_func (n : string) (fd : func_def) : M unit :=
  fun s => (Ok tt, mkState (globals s) (frame s) (heap s) (next_id s) ((n, fd) :: funcs s)
                           (classes s) (trace s) (world s)).

Definition def_class (n : string) (cd : class_def) : M unit :=
  fun s => (Ok tt, mkState (globals s) (frame s) (heap s) (next_id s) (funcs s)
                           ((n, cd) :: classes s) (trace s) (world s)).

Definition handles (exc : option string) (e : exn) : bool :=
  match exc, e with
  | None, _ => true
  | Some k, Exn k' _ => String.eqb k "Exception" || String.eqb k k'
  end.

Fixpoint eval (fuel : nat) (e : expr) {struct fuel} : M value :=
  match fuel with
  | O => out_of_fuel
  | S f =>
    match e with
    | ENone => ret VNone
    | EBool b => ret (VBool b)
    | EInt n => ret (VInt n)
    | EFloat t => ret (VFloat t)
    | EStr s => ret (VStr s)
    | EName x => load x
    | EAttr e1 a => v <- eval f e1 ;; getattr v a
    | ECall fn args kwargs =>
      c <- eval f fn ;;
      vs <- mapM (eval f) args ;;
      kvs <- mapM (fun ke => v <- eval f (snd ke) ;; ret (fst ke, v)) kwargs ;;
      apply f c vs kvs
    | EList es => vs <- mapM (eval f) es ;; ret (VList vs)
    | EBinOp op l r => a <- eval f l ;; b <- eval f r ;; arith op a b
    | EIfExp c t e2 => v <- eval f c ;; b <- test v ;; if b then eval f t else eval f e2
    end
  end

with apply (fuel : nat) (c : value) (vs : list value) (kvs : list (string * value))
           {struct fuel} : M value :=
  match fuel with
  | O => out_of_fuel
  | S f =>
    match c with
    | VExt _ | VObj _ | VMeth _ _ => emit (Call c vs kvs)
    | VBuiltin b => builtin b vs kvs
    | VClass cn => instantiate (exec_block f) cn vs kvs
    | VFunc n =>
      s <- get ;;
      match lookup n (funcs s) with
      | Some fd => invoke (exec_block f) fd vs kvs
      | None => unsupported "unknown function"
      end
    | VUMeth r cn m =>
      s <- get ;;
      match lookup cn (classes s) with
      | None => unsupported "unknown class"
      | Some cd =>
        match lookup m (cd_methods cd) with
        | Some fd => invoke (exec_block f) fd (r :: vs) kvs
        | None => unsupported "unknown method"
        end
      end
    | _ => raise "TypeError" "object is not callable"
    end
  end

with exec (fuel : nat) (st : stmt) {struct fuel} : M (option value) :=
  match fuel with
  | O => out_of_fuel
  | S f =>
    match st with
    | SShell cmd => emit (Shell cmd) ;;; ret None
    | SImport module alias =>
      emit (Import module) ;;;
      match alias with
      | Some x => store x (VExt module) ;;; ret None
      | None =>
        match module with
        | [] => unsupported "import of nothing"
        | r :: _ => store r (VExt [r]) ;;; ret None
        end
      end
    | SFromImport module names =>
      emit (Import module) ;;;
      mapM (fun n => store n (VExt (module ++ [n]))) names ;;; ret None
    | SAssign x e => v <- eval f e ;; store x v ;;; ret None
    | SAssignAttr obj a e => v <- eval f e ;; o <- eval f obj ;; setattr o a v ;;; ret None
    | SExpr e => eval f e ;;; ret None
    | SReturn e => v <- eval f e ;; ret (Some v)
    | SFuncDef n ps b => def_func n (mkFunc ps b) ;;; store n (VFunc n) ;;; ret None
    | SClassDef n bases body =>
      bs <- mapM (eval f) bases ;;
      match methods_of body with
      | None => unsupported "class body with a statement that is not a def"
      | Some ms => def_class n (mkClass bs ms) ;;; store n (VClass n) ;;; ret None
      end
    | SIf c body orelse =>
      v <- eval f c ;; b <- test v ;; if b then exec_block f body else exec_block f orelse
    | SWhile c body =>
      v <- eval f c ;;
      b <- test v ;;
      if b then
        r <- exec_block f body ;;
        match r with
        | Some x => ret (Some x)
        | None => exec f (SWhile c body)
        end
      else ret None
    | SFor x iter body =>
      v <- eval f iter ;;
      match v with
      | VList vs =>
        (fix loop (l : list value) : M (option value) :=
           match l with
           | [] => ret None
           | y :: l' =>
             store x y ;;;
             r <- exec_block f body ;;
             match r with
             | Some z => ret (Some z)
             | None => loop l'
             end
           end) vs
      | _ => unsupported "iteration over a value that is not a list"
      end
    | STry body exc handler =>
      fun s =>
        match exec_block f body s with
        | (Raise e, s') =>
          if handles exc e
          then (set_frame (frame s) ;;; exec_block f handler) s'
          else (Raise e, s')
        | r => r
        end
    end
  end

with exec_block (fuel : nat) (ss : list stmt) {struct fuel} : M (option value) :=
  match fuel with
  | O => out_of_fuel
  | S f =>
    match ss with
    | [] => ret None
    | st :: rest =>
      r <- exec f st ;;
      match r with
      | Some v => ret (Some v)
      | None => exec_block f rest
      end
    end
  end.

(** Running all cells in order; the run stops at the first cell that does
    not end normally. *)
Fixpoint run_cells (fuel : nat) (cs : list cell) : M unit :=
  match cs with
  | [] => ret tt
  | Markdown _ :: rest => run_cells fuel rest
  | Code src _ :: rest =>
    r <- exec_block fuel src ;;
    match r with
    | None => run_cells fuel rest
    | Some _ => unsupported "return outside a function"
    end
  end.

Definition initial (w : W) : state := mkState [] None [] 0 [] [] [] w.

End Interpreter.

Arguments state W : clear implicits.
Arguments M W A : clear implicits.

(** ** The notebook, cell by cell *)

Module Notebook.

(** [dict(k=v, ...)] and dotted names, as the parser reads them. *)
Definition dict_ (kws : list (string * expr)) : expr := ECall (EName "dict") [] kws.
Definition dotted (x : string) (attrs : list string) : expr := fold_left EAttr attrs (EName x).

Definition cell0_text : list string :=
  [ "# Train an image classifier" ].

Definition cell1_source : list stmt :=
  [ SShell "pip install ColossalAI deepspeed" ].

Definition cell1_out0 : output :=
  Stream Stdout
    [ "Requirement already satisfied: ColossalAI in /usr/local/lib/python3.7/dist-packages (0.1)";
      "Requirement already satisfied: deepspeed in /usr/local/lib/python3.7/dist-packages (0.5.4)";
      "Requirement already satisfied: packaging in /usr/local/lib/python3.7/dist-packages (from deepspeed) (21.0)";
      "Requirement already satisfied: triton in /usr/local/lib/python3.7/dist-packages (from deepspeed) (1.1.1)";
      "Requirement already satisfied: tqdm in /usr/local/lib/python3.7/dist-packages (from deepspeed) (4.62.3)";
      "Requirement already satisfied: numpy in /usr/local/lib/python3.7/dist-packages (from deepspeed) (1.19.5)";
      "Requirement already satisfied: tensorboardX==1.8 in /usr/local/lib/python3.7/dist-packages (from deepspeed) (1.8)";
      "Requirement already satisfied: ninja in /usr/local/lib/python3.7/dist-packages (from deepspeed) (1.10.2.2)";
      "Requirement already satisfied: torch in /usr/local/lib/python3.7/dist-packages (from deepspeed) (1.9.0+cu111)";
      "Requirement already satisfied: psutil in /usr/local/lib/python3.7/dist-packages (from deepspeed) (5.4.8)";
      "Requirement already satisfied: protobuf>=3.2.0 in /usr/local/lib/python3.7/dist-packages (from tensorboardX==1.8->deepspeed) (3.17.3)";
      "Requirement already satisfied: six in /usr/local/lib/python3.7/dist-packages (from tensorboardX==1.8->deepspeed) (1.15.0)";
      "Requirement already satisfied: pyparsing>=2.0.2 in /usr/local/lib/python3.7/dist-packages (from packaging->deepspeed) (2.4.7)";
      "Requirement already satisfied: typing-extensions in /usr/local/lib/python3.7/dist-packages (from torch->deepspeed) (3.7.4.3)";
      "Requirement already satisfied: filelock in /usr/local/lib/python3.7/dist-packages (from triton->deepspeed) (3.3.0)" ].

Definition cell2_source : list stmt :=
  [ SImport ["colossalai"] None;
    SFromImport ["colossalai"; "engine"] ["Engine"; "NoPipelineSchedule"];
    SFromImport ["colossalai"; "trainer"] ["Trainer"];
    SFromImport ["colossalai"; "context"] ["Config"];
    SImport ["torch"] None ].

Definition cell2_out0 : output :=
  Stream Stdout
    [ "Please install apex to use FP16 Optimizer";
      "Apex should be installed to use the FP16 optimizer";
      "apex is required for mixed precision training" ].

Definition cell3_text : list string :=
  [ "First, we should initialize distributed environment. Though we just use single GPU in this example, we still need initialize distributed environment for compatibility. We just consider the simplest case here, so we just set the number of parallel processes to 1." ].

Definition cell4_source : list stmt :=
  [ SAssign "parallel_cfg"
      (ECall (EName "Config")
         [ dict_ [ ("parallel",
             dict_ [ ("data", dict_ [("size", EInt 1)]);
                     ("pipeline", dict_ [("size", EInt 1)]);
                     ("tensor", dict_ [("size", EInt 1); ("mode", ENone)]) ]) ] ] []);
    SExpr
      (ECall (dotted "colossalai" ["init_dist"]) []
         [ ("config", EName "parallel_cfg");
           ("local_rank", EInt 0);
           ("world_size", EInt 1);
           ("host", EStr "127.0.0.1");
           ("port", EInt 8888);
           ("backend", EStr "nccl") ]) ].

Definition cell4_out0 : output :=
  Stream Stderr
    [ "colossalai - torch.distributed.distributed_c10d - 2021-10-15 03:27:51,596 INFO: Added key: store_based_barrier_key:1 to store for rank: 0";
      "colossalai - torch.distributed.distributed_c10d - 2021-10-15 03:27:51,598 INFO: Rank 0: Completed store-based barrier for 1 nodes.";
      "colossalai - torch.distributed.distributed_c10d - 2021-10-15 03:27:51,602 INFO: Added key: store_based_barrier_key:2 to store for rank: 0";
      "colossalai - torch.distributed.distributed_c10d - 2021-10-15 03:27:51,605 INFO: Rank 0: Completed store-based barrier for 1 nodes.";
      "colossalai - torch.distributed.distributed_c10d - 2021-10-15 03:27:51,608 INFO: Added key: store_based_barrier_key:3 to store for rank: 0";
      "colossalai - torch.distributed.distributed_c10d - 2021-10-15 03:27:51,610 INFO: Rank 0: Completed store-based barrier for 1 nodes." ].

Definition cell4_out1 : output :=
  Stream Stdout
    [ "process rank 0 is bound to device 0";
      "initialized seed on rank 0, numpy: 1024, python random: 1024, ParallelMode.DATA: 1024, ParallelMode.TENSOR: 1124,the default parallel seed is ParallelMode.DATA." ].

Definition cell5_text : list string :=
  [ "Load and normalize the CIFAR10 training and test datasets using `colossalai.nn.data`. Note that we have wrapped `torchvision.transforms`, so that we can simply use the config dict to use them." ].

Definition cell6_source : list stmt :=
  [ SAssign "transform_cfg"
      (EList
         [ dict_ [("type", EStr "ToTensor")];
           dict_ [ ("type", EStr "Normalize");
                   ("mean", EList [EFloat "0.4914"; EFloat "0.4822"; EFloat "0.4465"]);
                   ("std", EList [EFloat "0.2023"; EFloat "0.1994"; EFloat "0.2010"]) ] ]);
    SAssign "batch_size" (EInt 128);
    SAssign "trainset"
      (ECall (dotted "colossalai" ["nn"; "data"; "CIFAR10Dataset"])
         [EName "transform_cfg"] [("root", EStr "./data"); ("train", EBool true)]);
    SAssign "trainloader"
      (ECall (dotted "torch" ["utils"; "data"; "DataLoader"])
         [EName "trainset"]
         [ ("batch_size", EName "batch_size"); ("shuffle", EBool true);
           ("num_workers", EInt 2) ]);
    SAssign "testset"
      (ECall (dotted "colossalai" ["nn"; "data"; "CIFAR10Dataset"])
         [EName "transform_cfg"] [("root", EStr "./data"); ("train", EBool false)]);
    SAssign "testloader"
      (ECall (dotted "torch" ["utils"; "data"; "DataLoader"])
         [EName "testset"]
         [ ("batch_size", EName "batch_size"); ("shuffle", EBool false);
           ("num_workers", EInt 2) ]) ].

Definition cell6_out0 : output :=
  Stream Stdout
    [ "Files already downloaded and verified";
      "Files already downloaded and verified" ].

Definition cell7_text : list string :=
  [ "We just define a simple Convolutional Neural Network here." ].

Definition cell8_source : list stmt :=
  [ SImport ["torch"; "nn"] (Some "nn");
    SImport ["torch"; "nn"; "functional"] (Some "F");
    SClassDef "Net" [dotted "nn" ["Module"]]
      [ SFuncDef "__init__" ["self"]
          [ SExpr (ECall (EAttr (ECall (EName "super") [] []) "__init__") [] []);
            SAssignAttr (EName "self") "conv1"
              (ECall (dotted "nn" ["Conv2d"]) [EInt 3; EInt 6; EInt 5] []);
            SAssignAttr (EName "self") "pool"
              (ECall (dotted "nn" ["MaxPool2d"]) [EInt 2; EInt 2] []);
            SAssignAttr (EName "self") "conv2"
              (ECall (dotted "nn" ["Conv2d"]) [EInt 6; EInt 16; EInt 5] []);
            SAssignAttr (EName "self") "fc1"
              (ECall (dotted "nn" ["Linear"])
                 [EBinOp Mul (EBinOp Mul (EInt 16) (EInt 5)) (EInt 5); EInt 120] []);
            SAssignAttr (EName "self") "fc2"
              (ECall (dotted "nn" ["Linear"]) [EInt 120; EInt 84] []);
            SAssignAttr (EName "self") "fc3"
              (ECall (dotted "nn" ["Linear"]) [EInt 84; EInt 10] []) ];
        SFuncDef "forward" ["self"; "x"]
          [ SAssign "x"
              (ECall (dotted "self" ["pool"])
                 [ECall (dotted "F" ["relu"])
                    [ECall (dotted "self" ["conv1"]) [EName "x"] []] []] []);
            SAssign "x"
              (ECall (dotted "self" ["pool"])
                 [ECall (dotted "F" ["relu"])
                    [ECall (dotted "self" ["conv2"]) [EName "x"] []] []] []);
            SAssign "x" (ECall (dotted "torch" ["flatten"]) [EName "x"; EInt 1] []);
            SAssign "x"
              (ECall (dotted "F" ["relu"])
                 [ECall (dotted "self" ["fc1"]) [EName "x"] []] []);
            SAssign "x"
              (ECall (dotted "F" ["relu"])
                 [ECall (dotted "self" ["fc2"]) [EName "x"] []] []);
            SAssign "x" (ECall (dotted "self" ["fc3"]) [EName "x"] []);
            SReturn (EName "x") ] ];
    SAssign "model" (ECall (EAttr (ECall (EName "Net") [] []) "cuda") [] []) ].

Definition cell9_text : list string :=
  [ "Define a Loss function and optimizer. And then we use them to initialize `Engine` and `Trainer`. We provide various training / evaluating hooks. In this case, we just use the simplest hooks which can compute and print loss and accuracy." ].

Definition cell10_source : list stmt :=
  [ SImport ["torch"; "optim"] (Some "optim");
    SAssign "criterion" (ECall (dotted "nn" ["CrossEntropyLoss"]) [] []);
    SAssign "optimizer"
      (ECall (dotted "optim" ["SGD"])
         [ECall (dotted "model" ["parameters"]) [] []]
         [("lr", EFloat "0.001"); ("momentum", EFloat "0.9")]);
    SAssign "schedule" (ECall (EName "NoPipelineSchedule") [] []);
    SAssign "engine"
      (ECall (EName "Engine") []
         [ ("model", EName "model");
           ("criterion", EName "criterion");
           ("optimizer", EName "optimizer");
           ("lr_scheduler", ENone);
           ("schedule", EName "schedule") ]);
    SAssign "trainer"
      (ECall (EName "Trainer") []
         [ ("engine", EName "engine");
           ("hooks_cfg",
            EList [ dict_ [("type", EStr "LossHook")];
                    dict_ [("type", EStr "LogMetricByEpochHook")];
                    dict_ [("type", EStr "AccuracyHook")] ]);
           ("verbose", EBool true) ]) ].

Definition cell10_out0 : output :=
  Stream Stderr
    [ "colossalai - rank_0 - 2021-10-15 03:27:56,018 WARNING: No gradient handler is set up, please make sure you do not need to all-reduce the gradients after a training step.";
      "colossalai - rank_0 - 2021-10-15 03:27:56,024 INFO: build LogMetricByEpochHook for train, priority = 1";
      "colossalai - rank_0 - 2021-10-15 03:27:56,026 INFO: build LossHook for train, priority = 10";
      "colossalai - rank_0 - 2021-10-15 03:27:56,029 INFO: build AccuracyHook for train, priority = 10" ].

Definition cell11_text : list string :=
  [ "Then we set training configs. We train our model for 10 epochs and it will be evaluated every 1 epoch. Set `display_progress` to `True` to display the training / evaluating progress bar." ].

Definition cell12_source : list stmt :=
  [ SAssign "num_epochs" (EInt 10);
    SAssign "test_interval" (EInt 1);
    SExpr
      (ECall (dotted "trainer" ["fit"]) []
         [ ("train_dataloader", EName "trainloader");
           ("test_dataloader", EName "testloader");
           ("max_epochs", EName "num_epochs");
           ("display_progress", EBool true);
           ("test_interval", EName "test_interval") ]) ].

Definition cell12_out0 : output :=
  Stream Stderr
    [ "[Epoch 0 train]:   0%|          | 0/391 [00:00<?, ?it/s]/usr/local/lib/python3.7/dist-packages/torch/nn/functional.py:718: UserWarning: Named tensors and all their associated APIs are an experimental feature and subject to change. Please do not use them for anything important until they are released as stable. (Triggered internally at  /pytorch/c10/core/TensorImpl.h:1156.)";
      "  return torch.max_pool2d(input, kernel_size, stride, padding, dilation, ceil_mode)";
      "[Epoch 0 train]: 100%|██████████| 391/391 [00:14<00:00, 26.82it/s]";
      "colossalai - rank_0 - 2021-10-15 03:28:11,088 INFO: Training - Epoch 1 - LogMetricByEpochHook: Loss = 2.29158";
      "[Epoch 0 val]: 100%|██████████| 79/79 [00:02<00:00, 28.66it/s]";
      "colossalai - rank_0 - 2021-10-15 03:28:14,040 INFO: Testing - Epoch 1 - LogMetricByEpochHook: Loss = 2.26517, Accuracy = 0.14820";
      "[Epoch 1 train]: 100%|██████████| 391/391 [00:14<00:00, 26.31it/s]";
      "colossalai - rank_0 - 2021-10-15 03:28:29,059 INFO: Training - Epoch 2 - LogMetricByEpochHook: Loss = 2.15763";
      "[Epoch 1 val]: 100%|██████████| 79/79 [00:02<00:00, 28.50it/s]";
      "colossalai - rank_0 - 2021-10-15 03:28:32,007 INFO: Testing - Epoch 2 - LogMetricByEpochHook: Loss = 2.00450, Accuracy = 0.27850";
      "[Epoch 2 train]: 100%|██████████| 391/391 [00:14<00:00, 26.08it/s]";
      "colossalai - rank_0 - 2021-10-15 03:28:47,167 INFO: Training - Epoch 3 - LogMetricByEpochHook: Loss = 1.85409";
      "[Epoch 2 val]: 100%|██████████| 79/79 [00:02<00:00, 27.89it/s]";
      "colossalai - rank_0 - 2021-10-15 03:28:50,168 INFO: Testing - Epoch 3 - LogMetricByEpochHook: Loss = 1.73788, Accuracy = 0.35990";
      "[Epoch 3 train]: 100%|██████████| 391/391 [00:14<00:00, 26.09it/s]";
      "colossalai - rank_0 - 2021-10-15 03:29:05,330 INFO: Training - Epoch 4 - LogMetricByEpochHook: Loss = 1.69363";
      "[Epoch 3 val]: 100%|██████████| 79/79 [00:02<00:00, 28.43it/s]";
      "colossalai - rank_0 - 2021-10-15 03:29:08,290 INFO: Testing - Epoch 4 - LogMetricByEpochHook: Loss = 1.65005, Accuracy = 0.39350";
      "[Epoch 4 train]: 100%|██████████| 391/391 [00:15<00:00, 25.97it/s]";
      "colossalai - rank_0 - 2021-10-15 03:29:23,530 INFO: Training - Epoch 5 - LogMetricByEpochHook: Loss = 1.61387";
      "[Epoch 4 val]: 100%|██████████| 79/79 [00:02<00:00, 27.75it/s]";
      "colossalai - rank_0 - 2021-10-15 03:29:26,515 INFO: Testing - Epoch 5 - LogMetricByEpochHook: Loss = 1.57507, Accuracy = 0.42430";
      "[Epoch 5 train]: 100%|██████████| 391/391 [00:15<00:00, 25.92it/s]";
      "colossalai - rank_0 - 2021-10-15 03:29:41,764 INFO: Training - Epoch 6 - LogMetricByEpochHook: Loss = 1.55712";
      "[Epoch 5 val]: 100%|██████████| 79/79 [00:02<00:00, 27.51it/s]";
      "colossalai - rank_0 - 2021-10-15 03:29:44,778 INFO: Testing - Epoch 6 - LogMetricByEpochHook: Loss = 1.53242, Accuracy = 0.43700";
      "[Epoch 6 train]: 100%|██████████| 391/391 [00:14<00:00, 26.13it/s]";
      "colossalai - rank_0 - 2021-10-15 03:29:59,927 INFO: Training - Epoch 7 - LogMetricByEpochHook: Loss = 1.51618";
      "[Epoch 6 val]: 100%|██████████| 79/79 [00:02<00:00, 28.31it/s]";
      "colossalai - rank_0 - 2021-10-15 03:30:02,884 INFO: Testing - Epoch 7 - LogMetricByEpochHook: Loss = 1.49720, Accuracy = 0.45430";
      "[Epoch 7 train]: 100%|██████████| 391/391 [00:14<00:00, 26.23it/s]";
      "colossalai - rank_0 - 2021-10-15 03:30:17,968 INFO: Training - Epoch 8 - LogMetricByEpochHook: Loss = 1.47857";
      "[Epoch 7 val]: 100%|██████████| 79/79 [00:02<00:00, 27.97it/s]";
      "colossalai - rank_0 - 2021-10-15 03:30:20,967 INFO: Testing - Epoch 8 - LogMetricByEpochHook: Loss = 1.45808, Accuracy = 0.46320";
      "[Epoch 8 train]: 100%|██████████| 391/391 [00:14<00:00, 26.11it/s]";
      "colossalai - rank_0 - 2021-10-15 03:30:36,129 INFO: Training - Epoch 9 - LogMetricByEpochHook: Loss = 1.44656";
      "[Epoch 8 val]: 100%|██████████| 79/79 [00:02<00:00, 28.18it/s]";
      "colossalai - rank_0 - 2021-10-15 03:30:39,096 INFO: Testing - Epoch 9 - LogMetricByEpochHook: Loss = 1.44903, Accuracy = 0.46580";
      "[Epoch 9 train]: 100%|██████████| 391/391 [00:15<00:00, 25.97it/s]";
      "colossalai - rank_0 - 2021-10-15 03:30:54,342 INFO: Training - Epoch 10 - LogMetricByEpochHook: Loss = 1.41120";
      "[Epoch 9 val]: 100%|██████████| 79/79 [00:02<00:00, 28.05it/s]";
      "colossalai - rank_0 - 2021-10-15 03:30:57,332 INFO: Testing - Epoch 10 - LogMetricByEpochHook: Loss = 1.41242, Accuracy = 0.48500" ].

Definition cells : list cell :=
  [ Markdown cell0_text;
    Code cell1_source [cell1_out0];
    Code cell2_source [cell2_out0];
    Markdown cell3_text;
    Code cell4_source [cell4_out0; cell4_out1];
    Markdown cell5_text;
    Code cell6_source [cell6_out0];
    Markdown cell7_text;
    Code cell8_source [];
    Markdown cell9_text;
    Code cell10_source [cell10_out0];
    Markdown cell11_text;
    Code cell12_source [cell12_out0] ].

End Notebook.

(** ** Reading events *)

Definition path_eqb (p q : list string) : bool :=
  if list_eq_dec string_dec p q then true else false.

(** The event calls the package function or class at [p]. *)
Definition calls (p : list string) (ev : event) : bool :=
  match ev with
  | Call (VExt q) _ _ => path_eqb q p
  | _ => false
  end.

(** The event calls the method [m] of a package object. *)
Definition calls_method (m : string) (ev : event) : bool :=
  match ev with
  | Call (VMeth _ n) _ _ => String.eqb n m
  | _ => false
  end.

Definition receiver (ev : event) : option value :=
  match ev with
  | Call (VMeth r _) _ _ => Some r
  | _ => None
  end.

Definition kwarg (k : string) (ev : event) : option value :=
  match ev with
  | Call _ _ kws => lookup k kws
  | _ => None
  end.

Definition posarg (i : nat) (ev : event) : option value :=
  match ev with
  | Call _ args _ => nth_error args i
  | _ => None
  end.

(** [d[k1][k2]...] on nested dicts. *)
Fixpoint dict_get (path : list string) (v : value) : option value :=
  match path with
  | [] => Some v
  | k :: rest =>
    match v with
    | VDict kvs =>
      match lookup k kvs with
      | Some x => dict_get rest x
      | None => None
      end
    | _ => None
    end
  end.

Definition dict_keys (v : value) : list string :=
  match v with
  | VDict kvs => map fst kvs
  | _ => []
  end.

Definition indexed {A : Type} (l : list A) : list (nat * A) := combine (seq 0 (length l)) l.

(** ** Running the notebook against opaque packages *)

(** The packages are opaque to the notebook: an import or a call either raises
    or returns an object the notebook can only pass on.  A script fixes which:
    its [n]-th entry is the exception the [n]-th event of the run raises, if
    any; past its end every event succeeds.  (A shell magic raises when it
    is interrupted, not when its command fails: the exit status is no
    exception.) *)
Definition script := list (option exn).

Definition opaque (sc : script) (w : unit) (n : nat) (ev : event) : unit * (exn + value) :=
  (w, match nth n sc None with Some e => inl e | None => inr (VObj n) end).

Definition fuel : nat := 40.

Definition run (sc : script) : outcome unit * state unit :=
  run_cells (opaque sc) fuel Notebook.cells (initial tt).

Definition result (sc : script) : outcome unit := fst (run sc).
Definition events (sc : script) : list event := trace (snd (run sc)).

(** The events of the run in which nothing fails. *)
Definition full_trace : list event := Eval vm_compute in events [].

(** The first exception of a script, with its position. *)
Fixpoint first_raise (n : nat) (sc : script) : option (nat * exn) :=
  match sc with
  | [] => None
  | Some e :: _ => Some (n, e)
  | None :: rest => first_raise (S n) rest
  end.

Definition replay (sc : script) : outcome unit * list event :=
  match first_raise 0 (firstn (length full_trace) sc) with
  | None => (Ok tt, full_trace)
  | Some (k, e) => (Raise e, firstn (S k) full_trace)
  end.

(** ** The parts of torch the network is built from

    The tensor library is not part of the notebook.  What follows states, for
    the layers and functions that [Net] uses, the shape rules of their
    documentation (torch.nn.Conv2d, MaxPool2d, Linear, torch.flatten,
    functional.relu), with the defaults the notebook leaves in place, and the
    order in which a DataLoader visits its dataset.  A convolution and a
    pooling take a batch (N, C, H, W) or one unbatched input (C, H, W); a
    pooling takes no input without channels; a linear layer takes an input
    of any number of dimensions, the last one its features. *)

Module Torch.

Inductive layer :=
| Conv2d (in_channels out_channels kernel_size : Z)
| MaxPool2d (kernel_size stride : Z)
| Linear (in_features out_features : Z).

(** floor((size + 2*padding - dilation*(kernel - 1) - 1) / stride + 1) *)
Definition out_size (size kernel stride padding dilation : Z) : Z :=
  ((size + 2 * padding - dilation * (kernel - 1) - 1) / stride + 1)%Z.

Fixpoint replace_last (s : list Z) (fin fout : Z) : option (list Z) :=
  match s with
  | [] => None
  | [d] => if Z.eqb d fin then Some [fout] else None
  | d :: s' =>
    match replace_last s' fin fout with
    | Some r => Some (d :: r)
    | None => None
    end
  end.

Definition layer_shape (l : layer) (s : list Z) : option (list Z) :=
  match l, s with
  | Conv2d cin cout k, [n; c; h; w] =>
    if Z.eqb c cin && Z.leb k h && Z.leb k w
    then Some [n; cout; out_size h k 1 0 1; out_size w k 1 0 1]
    else None
  | Conv2d cin cout k, [c; h; w] =>
    if Z.eqb c cin && Z.leb k h && Z.leb k w
    then Some [cout; out_size h k 1 0 1; out_size w k 1 0 1]
    else None
  | MaxPool2d k st, [n; c; h; w] =>
    let h' := out_size h k st 0 1 in
    let w' := out_size w k st 0 1 in
    if Z.ltb 0 c && Z.ltb 0 h' && Z.ltb 0 w' then Some [n; c; h'; w'] else None
  | MaxPool2d k st, [c; h; w] =>
    let h' := out_size h k st 0 1 in
    let w' := out_size w k st 0 1 in
    if Z.ltb 0 c && Z.ltb 0 h' && Z.ltb 0 w' then Some [c; h'; w'] else None
  | Linear fin fout, _ => replace_last s fin fout
  | _, _ => None
  end.

(** torch.flatten(x, start_dim): the dimensions from [start_dim] on become one. *)
Definition flatten (s : list Z) (start_dim : nat) : option (list Z) :=
  if Nat.ltb start_dim (length s)
  then Some (firstn start_dim s ++ [fold_right Z.mul 1%Z (skipn start_dim s)])%list
  else None.

(** The order of one pass over a dataset of [n] samples: sequential without
    shuffling, and with shuffling the permutation drawn for that pass. *)
Definition pass_order (shuffle : bool) (n : nat) (drawn : list nat) : list nat :=
  if shuffle then drawn else seq 0 n.

(** Objects of the library, by handle. *)
Inductive obj :=
| OLayer (l : layer)
| OTensor (shape : list Z)
| OOther.

Definition new (o : obj) (w : list obj) : list obj * (exn + value) :=
  ((w ++ [o])%list, inr (VObj (length w))).

Definition shape_error (w : list obj) : list obj * (exn + value) :=
  (w, inl (Exn "RuntimeError" "shape mismatch")).

(** The world in which tensors are their shapes. *)
Definition shapes (w : list obj) (n : nat) (ev : event) : list obj * (exn + value) :=
  match ev with
  | Call (VExt p) [VInt a; VInt b; VInt c] [] =>
    if path_eqb p ["torch"; "nn"; "Conv2d"] then new (OLayer (Conv2d a b c)) w
    else new OOther w
  | Call (VExt p) [VInt a; VInt b] [] =>
    if path_eqb p ["torch"; "nn"; "MaxPool2d"] then new (OLayer (MaxPool2d a b)) w
    else if path_eqb p ["torch"; "nn"; "Linear"] then new (OLayer (Linear a b)) w
    else new OOther w
  | Call (VExt p) [VObj t] [] =>
    if path_eqb p ["torch"; "nn"; "functional"; "relu"] then
      match nth_error w t with
      | Some (OTensor s) => new (OTensor s) w
      | _ => new OOther w
      end
    else new OOther w
  | Call (VExt p) [VObj t; VInt d] [] =>
    if path_eqb p ["torch"; "flatten"] then
      match nth_error w t with
      | Some (OTensor s) =>
        match flatten s (Z.to_nat d) with
        | Some s' => new (OTensor s') w
        | None => shape_error w
        end
      | _ => new OOther w
      end
    else new OOther w
  | Call (VObj h) [VObj t] [] =>
    match nth_error w h, nth_error w t with
    | Some (OLayer l), Some (OTensor s) =>
      match layer_shape l s with
      | Some s' => new (OTensor s') w
      | None => shape_error w
      end
    | _, _ => new OOther w
    end
  | Call (VMeth r m) [] [] =>
    if String.eqb m "cuda" then (w, inr r) else new OOther w
  | _ => new OOther w
  end.

End Torch.

Definition with_world {W : Type} (s : state W) (w : W) : state W :=
  mkState (globals s) (frame s) (heap s) (next_id s) (funcs s) (classes s) (trace s) w.

(** [Net.forward] on a tensor of a given shape: the notebook is run in the
    world of shapes, and the [forward] method of the object it binds to
    [model] is applied to a fresh tensor, as [nn.Module.__call__] does. *)
Definition Net_forward_run (input : list Z) : outcome value * state (list Torch.obj) :=
  match run_cells Torch.shapes fuel Notebook.cells (initial []) with
  | (Ok _, s) =>
    match lookup "model" (globals s) with
    | Some m =>
      let x := VObj (length (world s)) in
      bind (getattr m "forward") (fun f => apply Torch.shapes fuel f [x] [])
           (with_world s (world s ++ [Torch.OTensor input])%list)
    | None => (Raise (Exn "NameError" "model"), s)
    end
  | (Raise e, s) => (Raise e, s)
  | (Unsupported w, s) => (Unsupported w, s)
  | (OutOfFuel, s) => (OutOfFuel, s)
  end.

Definition Net_forward (input : list Z) : outcome (list Z) :=
  match Net_forward_run input with
  | (Ok (VObj h), s) =>
    match nth_error (world s) h with
    | Some (Torch.OTensor sh) => Ok sh
    | _ => Unsupported "the result is not a tensor"
    end
  | (Ok _, _) => Unsupported "the result is not a tensor"
  | (Raise e, _) => Raise e
  | (Unsupported w, _) => Unsupported w
  | (OutOfFuel, _) => OutOfFuel
  end.

(** A batch of [N] images of three channels, 32 by 32. *)
Definition images (N : nat) : list Z := [Z.of_nat N; 3; 32; 32]%Z.

Definition tensor_shapes (w : list Torch.obj) : list (list Z) :=
  flat_map (fun o => match o with Torch.OTensor s => [s] | _ => [] end) w.

Definition layers (w : list Torch.obj) : list Torch.layer :=
  flat_map (fun o => match o with Torch.OLayer l => [l] | _ => [] end) w.

(** ** What the properties are stated with *)

(** *** The configuration of the distributed environment *)

Definition init_dist : list string := ["colossalai"; "init_dist"].
Definition Config : list string := ["colossalai"; "context"; "Config"].

(** The parallel groups of a configuration are data, pipeline and tensor,
    each of size 1, and the tensor mode is None. *)
Definition single_process (cfg : value) : Prop :=
  option_map dict_keys (dict_get ["parallel"] cfg) = Some ["data"; "pipeline"; "tensor"] /\
  dict_get ["parallel"; "data"; "size"] cfg = Some (VInt 1) /\
  dict_get ["parallel"; "pipeline"; "size"] cfg = Some (VInt 1) /\
  dict_get ["parallel"; "tensor"; "size"] cfg = Some (VInt 1) /\
  dict_get ["parallel"; "tensor"; "mode"] cfg = Some VNone.

(** *** Assignments and the calls of fit *)

Definition Trainer : list string := ["colossalai"; "trainer"; "Trainer"].

(** The right-hand sides of the module-level assignments to [x]. *)
Fixpoint assigned_in (x : string) (ss : list stmt) : list expr :=
  match ss with
  | [] => []
  | SAssign y e :: rest =>
    if String.eqb x y then e :: assigned_in x rest else assigned_in x rest
  | _ :: rest => assigned_in x rest
  end.

Definition assigned (x : string) (cs : list cell) : list expr :=
  flat_map (fun c => match c with Code src _ => assigned_in x src | Markdown _ => [] end) cs.

Definition fit_calls (sc : script) : list event := filter (calls_method "fit") (events sc).

(** *** The shape of the code *)

Fixpoint conditional_free (e : expr) : bool :=
  match e with
  | EIfExp _ _ _ => false
  | EAttr e1 _ => conditional_free e1
  | ECall f args kwargs =>
    conditional_free f && forallb conditional_free args &&
    forallb (fun ke => match ke with (_, v) => conditional_free v end) kwargs
  | EList es => forallb conditional_free es
  | EBinOp _ l r => conditional_free l && conditional_free r
  | ENone | EBool _ | EInt _ | EFloat _ | EStr _ | EName _ => true
  end.

(** No if, while, for, try or conditional expression, at any depth. *)
Fixpoint straight_line (s : stmt) : bool :=
  match s with
  | SShell _ | SImport _ _ | SFromImport _ _ => true
  | SAssign _ e | SExpr e | SReturn e => conditional_free e
  | SAssignAttr o _ e => conditional_free o && conditional_free e
  | SFuncDef _ _ body => forallb straight_line body
  | SClassDef _ bases body => forallb conditional_free bases && forallb straight_line body
  | SIf _ _ _ | SWhile _ _ | SFor _ _ _ | STry _ _ _ => false
  end.

Definition code (cs : list cell) : list stmt :=
  flat_map (fun c => match c with Code src _ => src | Markdown _ => [] end) cs.

(** A literal: a constant token, a list of literals, or dict(k=literal, ...). *)
Fixpoint is_literal (e : expr) : bool :=
  match e with
  | ENone | EBool _ | EInt _ | EFloat _ | EStr _ => true
  | EList es => forallb is_literal es
  | ECall (EName f) [] kws =>
    String.eqb f "dict" &&
    forallb (fun ke => match ke with (_, v) => is_literal v end) kws
  | _ => false
  end.

Definition is_call (e : expr) : bool :=
  match e with
  | ECall _ _ _ => true
  | _ => false
  end.

Definition packages : list string := ["colossalai"; "torch"].

Definition in_packages (p : list string) : bool :=
  match p with
  | r :: _ => existsb (String.eqb r) packages
  | [] => false
  end.

(** What is called belongs to a package: a function or class of one, an
    object one made, or a method of such an object or of an instance of a
    class derived from a package class. *)
Definition package_callee (c : value) : bool :=
  match c with
  | VExt p => in_packages p
  | VObj _ => true
  | VMeth (VObj _) _ | VMeth (VInst _ _) _ | VMeth (VSuper _) _ => true
  | _ => false
  end.

Definition into_package (ev : event) : bool :=
  match ev with
  | Shell _ => true
  | Import p => in_packages p
  | Call c _ _ => package_callee c
  end.

Definition defined_functions (sc : script) : list string :=
  map fst (funcs (snd (run sc))) ++
  flat_map (fun c => map (fun m => fst c ++ "." ++ fst m) (cd_methods (snd c)))
           (classes (snd (run sc))).

(** *** Datasets and handlers *)

Definition CIFAR10Dataset : list string := ["colossalai"; "nn"; "data"; "CIFAR10Dataset"].

(** ToTensor, then Normalize with its mean and std. *)
Definition transform_cfg : value :=
  VList
    [ VDict [("type", VStr "ToTensor")];
      VDict [ ("type", VStr "Normalize");
              ("mean", VList [VFloat "0.4914"; VFloat "0.4822"; VFloat "0.4465"]);
              ("std", VList [VFloat "0.2023"; VFloat "0.1994"; VFloat "0.2010"]) ] ].

Definition dataset_calls (sc : script) : list event := filter (calls CIFAR10Dataset) (events sc).

Fixpoint handler_free (s : stmt) : bool :=
  match s with
  | STry _ _ _ => false
  | SFuncDef _ _ body | SClassDef _ _ body | SWhile _ body | SFor _ _ body =>
    forallb handler_free body
  | SIf _ body orelse => forallb handler_free body && forallb handler_free orelse
  | SShell _ | SImport _ _ | SFromImport _ _ | SAssign _ _ | SAssignAttr _ _ _
  | SExpr _ | SReturn _ => true
  end.

(** The download of the training split fails. *)
Definition download_fails : script :=
  (repeat None 8 ++ [Some (Exn "RuntimeError" "Dataset not found or corrupted")])%list.

(** *** Steps and their order *)

Definition DataLoader : list string := ["torch"; "utils"; "data"; "DataLoader"].
Definition Engine : list string := ["colossalai"; "engine"; "Engine"].

(** The package an import or a call by name goes to. *)
Definition package_of (ev : event) : option string :=
  match ev with
  | Import (r :: _) => Some r
  | Call (VExt (r :: _)) _ _ => Some r
  | _ => None
  end.

Inductive step := Init | Dataset | Model | Criterion | Construct | Fit.

(** The step of the notebook an event belongs to: initialisation of the
    distributed environment, construction of the datasets and their loaders,
    construction of the model, choice of loss, optimizer and schedule,
    construction of engine and trainer, training. *)
Definition step_of (ev : event) : option step :=
  if calls init_dist ev then Some Init
  else if calls CIFAR10Dataset ev || calls DataLoader ev then Some Dataset
  else if calls ["torch"; "nn"; "Conv2d"] ev || calls ["torch"; "nn"; "MaxPool2d"] ev
          || calls ["torch"; "nn"; "Linear"] ev
          || calls_method "__init__" ev || calls_method "cuda" ev then Some Model
  else if calls ["torch"; "nn"; "CrossEntropyLoss"] ev || calls ["torch"; "optim"; "SGD"] ev
          || calls_method "parameters" ev
          || calls ["colossalai"; "engine"; "NoPipelineSchedule"] ev then Some Criterion
  else if calls Engine ev || calls Trainer ev then Some Construct
  else if calls_method "fit" ev then Some Fit
  else None.

Definition is_step (st : step) (ev : event) : bool :=
  match step_of ev, st with
  | Some Init, Init | Some Dataset, Dataset | Some Model, Model
  | Some Criterion, Criterion | Some Construct, Construct | Some Fit, Fit => true
  | _, _ => false
  end.

Definition steps (l : list event) : list step :=
  flat_map (fun ev => match step_of ev with Some st => [st] | None => [] end) l.

(** Every [p]-event of [l] comes before every [q]-event of [l]. *)
Definition all_before (p q : event -> bool) (l : list event) : Prop :=
  forall i j evi evj,
    nth_error l i = Some evi -> nth_error l j = Some evj ->
    p evi = true -> q evj = true -> i < j.

Fixpoint objects_of (v : value) : list nat :=
  match v with
  | VObj h => [h]
  | VList vs => flat_map objects_of vs
  | VDict kvs => flat_map (fun kv => match kv with (_, x) => objects_of x end) kvs
  | VMeth r _ | VUMeth r _ _ | VSuper r => objects_of r
  | _ => []
  end.

(** The package objects an event passes or calls. *)
Definition objects_used (ev : event) : list nat :=
  match ev with
  | Call c args kws =>
    objects_of c ++ flat_map objects_of args ++ flat_map (fun kv => objects_of (snd kv)) kws
  | _ => []
  end.

Definition is_call_event (ev : event) : bool :=
  match ev with
  | Call _ _ _ => true
  | _ => false
  end.

Definition well_scoped (l : list event) : bool :=
  forallb (fun ne =>
             forallb (fun h =>
                        Nat.ltb h (fst ne) &&
                        match nth_error l h with
                        | Some p => is_call_event p
                        | None => false
                        end)
                     (objects_used (snd ne)))
          (indexed l).

(** *** Call sites and where their arguments come from *)

Fixpoint dotted_name (e : expr) : option (list string) :=
  match e with
  | EName x => Some [x]
  | EAttr e1 a => option_map (fun p => p ++ [a])%list (dotted_name e1)
  | _ => None
  end.

(** The call expressions of an expression, outermost first. *)
Fixpoint calls_in (e : expr) : list expr :=
  match e with
  | ECall f args kws =>
    e :: calls_in f ++ flat_map calls_in args ++
      flat_map (fun kv => match kv with (_, v) => calls_in v end) kws
  | EAttr e1 _ => calls_in e1
  | EList es => flat_map calls_in es
  | EBinOp _ l r => calls_in l ++ calls_in r
  | EIfExp c t e2 => calls_in c ++ calls_in t ++ calls_in e2
  | ENone | EBool _ | EInt _ | EFloat _ | EStr _ | EName _ => []
  end.

Fixpoint calls_in_stmt (s : stmt) : list expr :=
  match s with
  | SShell _ | SImport _ _ | SFromImport _ _ => []
  | SAssign _ e | SExpr e | SReturn e => calls_in e
  | SAssignAttr o _ e => calls_in e ++ calls_in o
  | SFuncDef _ _ body => flat_map calls_in_stmt body
  | SClassDef _ bases body => flat_map calls_in bases ++ flat_map calls_in_stmt body
  | SIf c body orelse =>
    calls_in c ++ flat_map calls_in_stmt body ++ flat_map calls_in_stmt orelse
  | SWhile c body => calls_in c ++ flat_map calls_in_stmt body
  | SFor _ it body => calls_in it ++ flat_map calls_in_stmt body
  | STry body _ handler => flat_map calls_in_stmt body ++ flat_map calls_in_stmt handler
  end.

Definition call_sites : list expr := flat_map calls_in_stmt (code Notebook.cells).

(** A name assigned once at module level stands for what it was assigned. *)
Definition resolve (e : expr) : expr :=
  match e with
  | EName x =>
    match assigned x Notebook.cells with
    | [rhs] => rhs
    | _ => e
    end
  | _ => e
  end.

(** Arithmetic on integer literals only. *)
Fixpoint literal_arith (e : expr) : bool :=
  match e with
  | EInt _ => true
  | EBinOp _ l r => literal_arith l && literal_arith r
  | _ => false
  end.

Inductive origin :=
| Literal          (* written as a literal, directly or through a name *)
| LiteralProduct   (* arithmetic on integer literals *)
| Object           (* returned by a call *)
| Local            (* a parameter or local variable of a method *)
| Computed.        (* anything else *)

Definition origin_of (e : expr) : origin :=
  let r := resolve e in
  if is_literal r then Literal
  else if literal_arith r then LiteralProduct
  else match r with
       | ECall _ _ _ => Object
       | EName _ => Local
       | _ => Computed
       end.

(** *** Loaders *)

Definition shuffle_of (ev : event) : option bool :=
  match kwarg "shuffle" ev with
  | Some (VBool b) => Some b
  | _ => None
  end.

(** The loader a run hands to fit in the given role. *)
Definition loader_of (role : string) (l : list event) : option event :=
  match filter (calls_method "fit") l with
  | [f] =>
    match kwarg role f with
    | Some (VObj h) => nth_error l h
    | _ => None
    end
  | _ => None
  end.

Definition loader_order (loader : event) (size : nat) (drawn : list nat) : option (list nat) :=
  option_map (fun b => Torch.pass_order b size drawn) (shuffle_of loader).

(** *** Recorded outputs and effects *)

Definition outputs_of (cs : list cell) : list output :=
  flat_map (fun c => match c with Code _ outs => outs | Markdown _ => [] end) cs.

Definition stream_of (o : output) : option stream :=
  match o with
  | Stream s _ => Some s
  | _ => None
  end.

(** The first name of what a call expression calls, when it is a dotted name. *)
Definition called_root (c : expr) : list string :=
  match c with
  | ECall f _ _ =>
    match dotted_name f with
    | Some (r :: _) => [r]
    | _ => []
    end
  | _ => []
  end.

Definition called_roots : list string := nodup string_dec (flat_map called_root call_sites).

(** The names the code binds at module level, by import, assignment or class
    definition, and the parameters of its methods. *)
Fixpoint bound_by (s : stmt) : list string :=
  match s with
  | SImport (r :: _) None => [r]
  | SImport _ (Some x) => [x]
  | SFromImport _ names => names
  | SAssign x _ => [x]
  | SClassDef n _ body => n :: flat_map bound_by body
  | SFuncDef _ ps _ => ps
  | _ => []
  end.

Definition known_name (x : string) : bool :=
  existsb (String.eqb x) (flat_map bound_by (code Notebook.cells)) ||
  existsb (String.eqb x) builtins.

(** A line of the log and a progress bar, as recorded under the last cell. *)
Definition log_line : string :=
  "colossalai - rank_0 - 2021-10-15 03:30:57,332 INFO: Testing - Epoch 10 - LogMetricByEpochHook: Loss = 1.41242, Accuracy = 0.48500".

Definition progress_bar : string :=
  "[Epoch 9 val]: 100%|██████████| 79/79 [00:02<00:00, 28.05it/s]".

Definition lines_on (st : stream) (cs : list cell) : list string :=
  flat_map (fun o => match o with
                     | Stream s t =>
                       match s, st with
                       | Stdout, Stdout | Stderr, Stderr => t
                       | _, _ => []
                       end
                     | _ => []
                     end) (outputs_of cs).

(** *** Programs to compare with *)

(** Three programs that are not in the notebook, to run the statements it
    does not use: a call guarded by a handler, a call made for each element of
    a list, and a call chosen by a condition. *)
Definition guarded_init : list stmt :=
  [ SImport ["colossalai"] None;
    STry [SExpr (ECall (EAttr (EName "colossalai") "init_dist") [] [])]
         None
         [SAssign "failed" (EBool true)] ].

Definition two_attempts : list stmt :=
  [ SImport ["colossalai"] None;
    SFor "k" (EList [EInt 1; EInt 2])
         [SExpr (ECall (EAttr (EName "colossalai") "init_dist") [] [])] ].

Definition chosen_call : list stmt :=
  [ SImport ["torch"] None;
    SAssign "n" (EInt 0);
    SIf (EName "n")
        [SExpr (ECall (EAttr (EName "torch") "zeros") [] [])]
        [SExpr (ECall (EAttr (EName "torch") "ones") [] [])] ].

Definition run_code (prog : list stmt) (sc : script) : outcome unit * list event :=
  let r := run_cells (opaque sc) fuel [Code prog []] (initial tt) in
  (fst r, trace (snd r)).

(** ** The interpreter, in continuation-passing style

    The same interpreter, each function taking what is done with its result.
    Against a world that answers by cases, a run unfolds to one chain of
    answers, one after the other; this is how [forward] is run on a tensor
    whose shape is not known.  [interp_k] below shows that nothing changes. *)

Section Continuations.
Context {W R : Type}.
Variable ext : W -> nat -> event -> W * (exn + value).

Notation "x <- m ;; k" := (bind m (fun x => k))
  (at level 61, m at next level, right associativity).
Notation "m ;;; k" := (bind m (fun _ => k))
  (at level 61, right associativity).

Definition emit_k (ev : event) (k : value -> M W R) : M W R :=
  fun s =>
    let r := ext (world s) (length (trace s)) ev in
    let s' := mkState (globals s) (frame s) (heap s) (next_id s) (funcs s) (classes s)
                      (trace s ++ [ev]) (fst r) in
    match snd r with
    | inl e => (Raise e, s')
    | inr v => k v s'
    end.

Fixpoint mapM_k {A B} (f : A -> (B -> M W R) -> M W R) (l : list A)
         (k : list B -> M W R) : M W R :=
  match l with
  | [] => k []
  | a :: l' => f a (fun b => mapM_k f l' (fun bs => k (b :: bs)))
  end.

Definition invoke_k (run_body : list stmt -> (option value -> M W R) -> M W R)
           (fd : func_def) (vs : list value) (kvs : list (string * value))
           (k : value -> M W R) : M W R :=
  match bind_params (fn_params fd) vs kvs with
  | None => raise "TypeError" "arguments do not match the parameters"
  | Some fr =>
    s <- get ;;
    set_frame (Some fr) ;;;
    run_body (fn_body fd)
      (fun r => set_frame (frame s) ;;; k (match r with Some v => v | None => VNone end))
  end.

Definition instantiate_k (run_body : list stmt -> (option value -> M W R) -> M W R)
           (cn : string) (vs : list value) (kvs : list (string * value))
           (k : value -> M W R) : M W R :=
  s <- get ;;
  match lookup cn (classes s) with
  | None => unsupported "unknown class"
  | Some cd =>
    o <- alloc cn ;;
    match lookup "__init__" (cd_methods cd) with
    | Some fd => invoke_k run_body fd (o :: vs) kvs (fun _ => k o)
    | None =>
      match cd_bases cd with
      | [] => k o
      | _ :: _ => emit_k (Call (VMeth (VSuper o) "__init__") vs kvs) (fun _ => k o)
      end
    end
  end.

Fixpoint eval_k (fuel : nat) (e : expr) (k : value -> M W R) {struct fuel} : M W R :=
  match fuel with
  | O => out_of_fuel
  | S f =>
    match e with
    | ENone => k VNone
    | EBool b => k (VBool b)
    | EInt n => k (VInt n)
    | EFloat t => k (VFloat t)
    | EStr s => k (VStr s)
    | EName x => v <- load x ;; k v
    | EAttr e1 a => eval_k f e1 (fun v => x <- getattr v a ;; k x)
    | ECall fn args kwargs =>
      eval_k f fn (fun c =>
      mapM_k (eval_k f) args (fun vs =>
      mapM_k (fun ke k' => eval_k f (snd ke) (fun v => k' (fst ke, v))) kwargs (fun kvs =>
      apply_k f c vs kvs k)))
    | EList es => mapM_k (eval_k f) es (fun vs => k (VList vs))
    | EBinOp op l r =>
      eval_k f l (fun a => eval_k f r (fun b => x <- arith op a b ;; k x))
    | EIfExp c t e2 =>
      eval_k f c (fun v => b <- test v ;; if b then eval_k f t k else eval_k f e2 k)
    end
  end

with apply_k (fuel : nat) (c : value) (vs : list value) (kvs : list (string * value))
             (k : value -> M W R) {struct fuel} : M W R :=
  match fuel with
  | O => out_of_fuel
  | S f =>
    match c with
    | VExt _ | VObj _ | VMeth _ _ => emit_k (Call c vs kvs) k
    | VBuiltin b => x <- builtin b vs kvs ;; k x
    | VClass cn => instantiate_k (exec_block_k f) cn vs kvs k
    | VFunc n =>
      s <- get ;;
      match lookup n (funcs s) with
      | Some fd => invoke_k (exec_block_k f) fd vs kvs k
      | None => unsupported "unknown function"
      end
    | VUMeth r cn m =>
      s <- get ;;
      match lookup cn (classes s) with
      | None => unsupported "unknown class"
      | Some cd =>
        match lookup m (cd_methods cd) with
        | Some fd => invoke_k (exec_block_k f) fd (r :: vs) kvs k
        | None => unsupported "unknown method"
        end
      end
    | _ => raise "TypeError" "object is not callable"
    end
  end

with exec_k (fuel : nat) (st : stmt) (k : option value -> M W R) {struct fuel} : M W R :=
  match fuel with
  | O => out_of_fuel
  | S f =>
    match st with
    | SShell cmd => emit_k (Shell cmd) (fun _ => k None)
    | SImport module alias =>
      emit_k (Import module) (fun _ =>
      match alias with
      | Some x => store x (VExt module) ;;; k None
      | None =>
        match module with
        | [] => unsupported "import of nothing"
        | r :: _ => store r (VExt [r]) ;;; k None
        end
      end)
    | SFromImport module names =>
      emit_k (Import module) (fun _ =>
      mapM (fun n => store n (VExt (module ++ [n]))) names ;;; k None)
    | SAssign x e => eval_k f e (fun v => store x v ;;; k None)
    | SAssignAttr obj a e =>
      eval_k f e (fun v => eval_k f obj (fun o => setattr o a v ;;; k None))
    | SExpr e => eval_k f e (fun _ => k None)
    | SReturn e => eval_k f e (fun v => k (Some v))
    | SFuncDef n ps b => def_func n (mkFunc ps b) ;;; store n (VFunc n) ;;; k None
    | SClassDef n bases body =>
      mapM_k (eval_k f) bases (fun bs =>
      match methods_of body with
      | None => unsupported "class body with a statement that is not a def"
      | Some ms => def_class n (mkClass bs ms) ;;; store n (VClass n) ;;; k None
      end)
    | SIf c body orelse =>
      eval_k f c (fun v =>
      b <- test v ;; if b then exec_block_k f body k else exec_block_k f orelse k)
    | SWhile c body =>
      eval_k f c (fun v =>
      b <- test v ;;
      if b then
        exec_block_k f body (fun r =>
        match r with
        | Some x => k (Some x)
        | None => exec_k f (SWhile c body) k
        end)
      else k None)
    | SFor x iter body =>
      eval_k f iter (fun v =>
      match v with
      | VList vs =>
        (fix loop (l : list value) : M W R :=
           match l with
           | [] => k None
           | y :: l' =>
             store x y ;;;
             exec_block_k f body (fun r =>
             match r with
             | Some z => k (Some z)
             | None => loop l'
             end)
           end) vs
      | _ => unsupported "iteration over a value that is not a list"
      end)
    | STry body exc handler =>
      fun s =>
        match exec_block ext f body s with
        | (Ok r, s') => k r s'
        | (Raise e, s') =>
          if handles exc e
          then (set_frame (frame s) ;;; exec_block_k f handler k) s'
          else (Raise e, s')
        | (Unsupported w, s') => (Unsupported w, s')
        | (OutOfFuel, s') => (OutOfFuel, s')
        end
    end
  end

with exec_block_k (fuel : nat) (ss : list stmt) (k : option value -> M W R)
                  {struct fuel} : M W R :=
  match fuel with
  | O => out_of_fuel
  | S f =>
    match ss with
    | [] => k None
    | st :: rest =>
      exec_k f st (fun r =>
      match r with
      | Some v => k (Some v)
      | None => exec_block_k f rest k
      end)
    end
  end.

End Continuations.

(** ** The network on shapes

    [forward], read as a function on shapes, statement by statement: each
    layer applied to what the previous one gives, a rejected shape ending
    it. *)

Definition and_then {A B : Type} (o : option A) (f : A -> option B) : option B :=
  match o with
  | Some a => f a
  | None => None
  end.

(** relu keeps the shape of what it is applied to. *)
Definition relu_shape (s : list Z) : option (list Z) := Some s.

Definition forward_shape (x : list Z) : option (list Z) :=
  let conv1 := Torch.layer_shape (Torch.Conv2d 3 6 5) in
  let pool := Torch.layer_shape (Torch.MaxPool2d 2 2) in
  let conv2 := Torch.layer_shape (Torch.Conv2d 6 16 5) in
  let fc1 := Torch.layer_shape (Torch.Linear (16 * 5 * 5) 120) in
  let fc2 := Torch.layer_shape (Torch.Linear 120 84) in
  let fc3 := Torch.layer_shape (Torch.Linear 84 10) in
  and_then (and_then (and_then (conv1 x) relu_shape) pool) (fun x =>
  and_then (and_then (and_then (conv2 x) relu_shape) pool) (fun x =>
  and_then (Torch.flatten x 1) (fun x =>
  and_then (and_then (fc1 x) relu_shape) (fun x =>
  and_then (and_then (fc2 x) relu_shape) (fun x =>
  fc3 x))))).

(** The heights and widths of the images the network takes: those that the
    two convolutions and poolings bring to 25 = 5 * 5, 1 * 25 or 25 * 1
    positions, 400 features with the 16 channels. *)
Definition accepted_size (h w : Z) : Prop :=
  (32 <= h <= 35 /\ 32 <= w <= 35)%Z \/
  (16 <= h <= 19 /\ 112 <= w <= 115)%Z \/
  (112 <= h <= 115 /\ 16 <= w <= 19)%Z.

(** What two rounds of convolution and pooling leave of a side of 16 or
    more. *)
Definition reduced (h : Z) : Z := ((h - 12) / 4)%Z.

(** The heights and widths of the unbatched images the network takes: an
    input (3, H, W) comes to the linear layers as 16 rows, one for each
    channel, which must have 400 features each. *)
Definition accepted_unbatched (h w : Z) : Prop :=
  (16 <= h /\ 16 <= w /\ reduced h * reduced w = 400)%Z.

(** The two rounds of convolution and pooling that forward begins with, and
    what it does with their result: flatten, then the three linear layers. *)
Definition features_shape (x : list Z) : option (list Z) :=
  let conv1 := Torch.layer_shape (Torch.Conv2d 3 6 5) in
  let pool := Torch.layer_shape (Torch.MaxPool2d 2 2) in
  let conv2 := Torch.layer_shape (Torch.Conv2d 6 16 5) in
  and_then (and_then (and_then (conv1 x) relu_shape) pool) (fun x =>
  and_then (and_then (conv2 x) relu_shape) pool).

Definition classifier_shape (x : list Z) : option (list Z) :=
  let fc1 := Torch.layer_shape (Torch.Linear (16 * 5 * 5) 120) in
  let fc2 := Torch.layer_shape (Torch.Linear 120 84) in
  let fc3 := Torch.layer_shape (Torch.Linear 84 10) in
  and_then (Torch.flatten x 1) (fun x =>
  and_then (and_then (fc1 x) relu_shape) (fun x =>
  and_then (and_then (fc2 x) relu_shape) (fun x =>
  fc3 x))).

(** A side after conv1, pool, conv2 and pool. *)
Definition through (h : Z) : Z :=
  Torch.out_size
    (Torch.out_size (Torch.out_size (Torch.out_size h 5 1 0 1) 2 2 0 1) 5 1 0 1)
    2 2 0 1.

Definition shape_mismatch : exn := Exn "RuntimeError" "shape mismatch".

(** The notebook, run in the world of shapes. *)
Definition shapes_run : outcome unit * state (list Torch.obj) :=
  Eval vm_compute in run_cells Torch.shapes fuel Notebook.cells (initial []).

(** ** The network against opaque layers *)

(** The state the run in which nothing fails ends in. *)
Definition complete : state unit := Eval vm_compute in snd (run []).

(** The instance that Net() makes, the first of the run. *)
Definition net : value := VInst "Net" 0.

(** The attributes that the code of the notebook has assigned to an
    instance, in the order of their assignment.  What the base class of a
    package keeps in an instance of its own accord is the package's, and is
    not here. *)
Definition attributes (id : nat) (h : list (nat * string * value)) : list (string * value) :=
  rev (flat_map (fun t => match t with
                          | (i, a, v) => if Nat.eqb i id then [(a, v)] else []
                          end) h).

(** self.a in a state. *)
Definition self_ (s : state unit) (a : string) : value :=
  match heap_get 0 a (heap s) with
  | Some v => v
  | None => VNone
  end.

Definition F_relu : value := VExt ["torch"; "nn"; "functional"; "relu"].
Definition torch_flatten : value := VExt ["torch"; "flatten"].

(** [forward] applied to [x] in the state [s] a run has left, the answers of
    the packages taken from [sc], the first entry for the first call that
    forward makes. *)
Definition forward_on (s : state unit) (x : value) (sc : script) : outcome value * state unit :=
  bind (getattr net "forward")
       (fun f => apply (opaque (repeat None (length (trace s)) ++ sc)%list) fuel f [x] [])
       s.

Definition forward_events (s : state unit) (x : value) (sc : script) : list event :=
  skipn (length (trace s)) (trace (snd (forward_on s x sc))).

(** Calls in a chain: each function on the result of the call before it,
    the first on [x]; the [n]-th event of a run returns the object [n]. *)
Fixpoint threaded (n : nat) (x : value) (fs : list (value * list value)) : list event :=
  match fs with
  | [] => []
  | (f, more) :: rest => Call f (x :: more) [] :: threaded (S n) (VObj n) rest
  end.

Definition forward_chain (s : state unit) : list (value * list value) :=
  [ (self_ s "conv1", []); (F_relu, []); (self_ s "pool", []);
    (self_ s "conv2", []); (F_relu, []); (self_ s "pool", []);
    (torch_flatten, [VInt 1]);
    (self_ s "fc1", []); (F_relu, []);
    (self_ s "fc2", []); (F_relu, []);
    (self_ s "fc3", []) ].

Definition forward_calls (s : state unit) (x : value) : list event :=
  threaded (length (trace s)) x (forward_chain s).

Definition forward_replay (s : state unit) (x : value) (sc : script)
  : outcome value * list event :=
  match first_raise 0 (firstn 12 sc) with
  | None => (Ok (VObj (length (trace s) + 11)), forward_calls s x)
  | Some (k, e) => (Raise e, firstn (S k) (forward_calls s x))
  end.

(** The layers of __init__, by attribute, with the call that makes each. *)
Definition Net_layers : list (string * event) :=
  [ ("conv1", Call (VExt ["torch"; "nn"; "Conv2d"]) [VInt 3; VInt 6; VInt 5] []);
    ("pool", Call (VExt ["torch"; "nn"; "MaxPool2d"]) [VInt 2; VInt 2] []);
    ("conv2", Call (VExt ["torch"; "nn"; "Conv2d"]) [VInt 6; VInt 16; VInt 5] []);
    ("fc1", Call (VExt ["torch"; "nn"; "Linear"]) [VInt 400; VInt 120] []);
    ("fc2", Call (VExt ["torch"; "nn"; "Linear"]) [VInt 120; VInt 84] []);
    ("fc3", Call (VExt ["torch"; "nn"; "Linear"]) [VInt 84; VInt 10] []) ].

Definition super_init : event := Call (VMeth (VSuper net) "__init__") [] [].

(** ** Loss, optimizer, engine and trainer *)

Definition CrossEntropyLoss : list string := ["torch"; "nn"; "CrossEntropyLoss"].
Definition SGD : list string := ["torch"; "optim"; "SGD"].
Definition NoPipelineSchedule : list string := ["colossalai"; "engine"; "NoPipelineSchedule"].

Definition hooks_cfg : value :=
  VList [ VDict [("type", VStr "LossHook")];
          VDict [("type", VStr "LogMetricByEpochHook")];
          VDict [("type", VStr "AccuracyHook")] ].

(** ** Cells run on their own *)

(** The code cells a selection keeps, one flag for each code cell in order;
    the notebook lets any of them be run and any be left out. *)
Fixpoint select (keep : list bool) (cs : list cell) : list cell :=
  match cs with
  | [] => []
  | Markdown _ :: rest => select keep rest
  | Code src outs :: rest =>
    match keep with
    | true :: keep' => Code src outs :: select keep' rest
    | false :: keep' => select keep' rest
    | [] => []
    end
  end.

(** The run of a selection, against a script. *)
Definition run_selected (sc : script) (keep : list bool) : outcome unit :=
  fst (run_cells (opaque sc) fuel (select keep Notebook.cells) (initial tt)).

(** The state a selection leaves when no import and no call fails: the
    session in which a user goes on. *)
Definition session (keep : list bool) : state unit :=
  snd (run_cells (opaque []) fuel (select keep Notebook.cells) (initial tt)).

(** The run ended with an exception of the script: a package failed. *)
Definition package_failure (sc : script) (r : outcome unit) : Prop :=
  exists e, In (Some e) sc /\ r = Raise e.

(** The names the cells left out would have bound. *)
Definition left_out (keep : list bool) : list string :=
  flat_map bound_by (code (select (map negb keep) Notebook.cells)).

(** What each cell needs of the cells before it. *)
Definition closed (imports init data model engine fit : bool) : bool :=
  implb init imports && implb data imports &&
  implb engine (imports && model) && implb fit (data && engine).

(** ** The recorded log *)

Definition digit (c : ascii) : option nat :=
  let d := nat_of_ascii c in
  if Nat.leb 48 d && Nat.leb d 57 then Some (d - 48) else None.

Fixpoint digits (s : string) : list nat :=
  match s with
  | EmptyString => []
  | String c r =>
    match digit c with
    | Some d => d :: digits r
    | None => []
    end
  end.

(** The number a string starts with. *)
Definition leading_number (s : string) : option nat :=
  match digits s with
  | [] => None
  | ds => Some (fold_left (fun acc d => 10 * acc + d) ds 0)
  end.

(** The number that follows the first [marker] of a line. *)
Definition number_after (marker line : string) : option nat :=
  match index 0 marker line with
  | Some i =>
    leading_number (substring (i + String.length marker) (String.length line) line)
  | None => None
  end.

Definition contains (marker line : string) : bool :=
  match index 0 marker line with
  | Some _ => true
  | None => false
  end.

Inductive phase := Training | Testing.

Definition phase_name (p : phase) : string :=
  match p with
  | Training => "Training"
  | Testing => "Testing"
  end.

(** A line of the logger at the end of an epoch: its phase and epoch. *)
Definition epoch_logged (l : string) : list (phase * nat) :=
  if String.prefix "colossalai - " l then
    flat_map (fun p =>
                match number_after (phase_name p ++ " - Epoch ") l with
                | Some n => [(p, n)]
                | None => []
                end) [Training; Testing]
  else [].

(** A finished progress bar: its phase, its epoch and its number of batches. *)
Definition bar_finished (l : string) : list (phase * nat * nat) :=
  if String.prefix "[Epoch " l && contains "100%|" l then
    match number_after "[Epoch " l, number_after "/" l with
    | Some e, Some n =>
      if contains " train]" l then [(Training, e, n)]
      else if contains " val]" l then [(Testing, e, n)]
      else []
    | _, _ => []
    end
  else [].

Definition recorded_log : list string := lines_on Stderr Notebook.cells.

(** The batches of a pass over [size] samples, the last one possibly short. *)
Definition batches (size batch_size : Z) : nat :=
  Z.to_nat ((size + batch_size - 1) / batch_size).

(** CIFAR-10 has 50000 training images and 10000 test images. *)
Definition cifar10_train : Z := 50000.
Definition cifar10_test : Z := 10000.

(** One training epoch and the test that follows it, as the log has them. *)
Definition epoch_lines (batch_size : Z) (e : nat) : list (phase * nat) * list (phase * nat * nat) :=
  ( [(Training, S e); (Testing, S e)],
    [(Training, e, batches cifar10_train batch_size);
     (Testing, e, batches cifar10_test batch_size)] ).

(** ** What a value was made by *)

(** The call that made an object: the [n]-th event of a run returns the
    object [n]. *)
Definition made_by (l : list event) (v : value) : option event :=
  match v with
  | VObj h => nth_error l h
  | _ => None
  end.

(** The attributes of an instance with the calls that made their values. *)
Definition layers_of (s : state unit) (id : nat) : list (string * option event) :=
  map (fun av => (fst av, made_by (trace s) (snd av))) (attributes id (heap s)).

(** The objects the attributes of an instance hold. *)
Definition handles_of (s : state unit) (id : nat) : list nat :=
  flat_map (fun av => match snd av with VObj h => [h] | _ => [] end)
           (attributes id (heap s)).

(** Net() called once more in the state [s], the answers of the packages
    taken from [sc]. *)
Definition construct_on (s : state unit) (sc : script) : outcome value * state unit :=
  apply (opaque (repeat None (length (trace s)) ++ sc)%list) fuel (VClass "Net") [] [] s.

(** ** The other recorded outputs *)

Fixpoint word (s : string) : string :=
  match s with
  | EmptyString => EmptyString
  | String c r => if Ascii.eqb c " " then EmptyString else String c (word r)
  end.

(** The word that follows the first [marker] of a line. *)
Definition word_after (marker line : string) : option string :=
  match index 0 marker line with
  | Some i =>
    Some (word (substring (i + String.length marker) (String.length line) line))
  | None => None
  end.

(** The hooks the trainer reports to have built. *)
Definition hooks_built (ls : list string) : list string :=
  flat_map (fun l => match word_after "INFO: build " l with
                     | Some w => [w]
                     | None => []
                     end) ls.

Definition hook_types (cfg : value) : list string :=
  match cfg with
  | VList hs =>
    flat_map (fun h => match dict_get ["type"] h with
                       | Some (VStr t) => [t]
                       | _ => []
                       end) hs
  | _ => []
  end.

Definition number (ds : list nat) : Z :=
  fold_left (fun acc d => (10 * acc + Z.of_nat d)%Z) ds 0%Z.

(** The time of day of a line of the logger, hh:mm:ss,mmm, in milliseconds;
    the first colon of such a line is the one after the hours. *)
Definition time_of (l : string) : option Z :=
  if String.prefix "colossalai - " l then
    match index 0 ":" l with
    | Some i =>
      let field := fun from len => digits (substring from len l) in
      match field (i - 2) 2, field (i + 1) 2, field (i + 4) 2, field (i + 7) 3 with
      | [h1; h2], [m1; m2], [s1; s2], [t1; t2; t3] =>
        Some (((number [h1; h2] * 60 + number [m1; m2]) * 60 + number [s1; s2]) * 1000
              + number [t1; t2; t3])%Z
      | _, _, _, _ => None
      end
    | None => None
    end
  else None.

Definition times (ls : list string) : list Z :=
  flat_map (fun l => match time_of l with Some t => [t] | None => [] end) ls.

Fixpoint ascending (l : list Z) : bool :=
  match l with
  | a :: (b :: _) as rest => Z.leb a b && ascending rest
  | _ => true
  end.

Definition count_lines (text : string) (ls : list string) : nat :=
  length (filter (String.eqb text) ls).

(** ** Training and test data side by side *)

(** A call without one of its keyword arguments, and without its positional
    arguments. *)
Definition without (k : string) (ev : event) : event :=
  match ev with
  | Call f args kws => Call f args (filter (fun kv => negb (String.eqb (fst kv) k)) kws)
  | _ => ev
  end.

Definition keywords_only (ev : event) : event :=
  match ev with
  | Call f _ kws => Call f [] kws
  | _ => ev
  end.

(** ** Calls, arguments and effects, one by one *)

(** An expression that only names, passes on and calls: a name, a literal, an
    attribute, a call, a list, or arithmetic on integer literals.  No operator
    is applied to a value, and there is no conditional. *)
Fixpoint direct (e : expr) : bool :=
  match e with
  | ENone | EBool _ | EInt _ | EFloat _ | EStr _ | EName _ => true
  | EAttr e1 _ => direct e1
  | ECall f args kws =>
    direct f && forallb direct args &&
    forallb (fun ke => match ke with (_, v) => direct v end) kws
  | EList es => forallb direct es
  | EBinOp _ l r => literal_arith l && literal_arith r
  | EIfExp _ _ _ => false
  end.

(** A statement of a method: a call, evaluated or assigned to a local name or
    to an attribute of self, or the return of a local name. *)
Definition method_form (s : stmt) : bool :=
  match s with
  | SExpr e | SAssign _ e => is_call e && direct e
  | SAssignAttr (EName r) _ e => String.eqb r "self" && is_call e && direct e
  | SReturn (EName _) => true
  | _ => false
  end.

(** A step of the script: a magic, an import, a call or a literal, assigned
    or evaluated, or the definition of a class whose bases are names and
    whose body is methods of statements of that form. *)
Definition direct_step (s : stmt) : bool :=
  match s with
  | SShell _ | SImport _ _ | SFromImport _ _ => true
  | SAssign _ e | SExpr e => (is_call e || is_literal e) && direct e
  | SClassDef _ bases body =>
    forallb (fun b => match dotted_name b with Some _ => true | None => false end) bases &&
    forallb (fun m => match m with
                      | SFuncDef _ _ b => forallb method_form b
                      | _ => false
                      end) body
  | _ => false
  end.

(** What a call is written with: a dotted name, or an attribute of what
    another call returns. *)
Fixpoint callee_text (e : expr) : string :=
  match e with
  | EName x => x
  | EAttr e1 a => callee_text e1 ++ "." ++ a
  | ECall f _ _ => callee_text f ++ "()"
  | _ => "_"
  end.

(** The calls of the code, in the order of the text, each before the calls
    among its arguments; the dict(...) of a literal is part of the literal. *)
Definition calls_made : list string :=
  flat_map (fun c => match c with
                     | ECall f _ _ => if is_literal c then [] else [callee_text f]
                     | _ => []
                     end) call_sites.

(** The names that the code assigns as attributes of self. *)
Fixpoint attribute_targets (s : stmt) : list string :=
  match s with
  | SAssignAttr (EName r) a _ => if String.eqb r "self" then [a] else []
  | SFuncDef _ _ body => flat_map attribute_targets body
  | SClassDef _ _ body => flat_map attribute_targets body
  | _ => []
  end.

(** The call that made what self.a holds. *)
Definition held (s : state unit) (a : string) : option event :=
  match heap_get 0 a (heap s) with
  | Some v => made_by (trace s) v
  | None => None
  end.

(** A call that forward may make: a layer of the network on one argument,
    relu on one argument, flatten from dimension 1. *)
Definition layer_call (s : state unit) (ev : event) : bool :=
  match ev with
  | Call (VObj h) [_] [] => existsb (Nat.eqb h) (handles_of s 0)
  | Call (VExt p) [_] [] => path_eqb p ["torch"; "nn"; "functional"; "relu"]
  | Call (VExt p) [_; VInt 1] [] => path_eqb p ["torch"; "flatten"]
  | _ => false
  end.

(** *** Every argument of every call *)

Inductive slot := Pos (i : nat) | Key (k : string).

(** The arguments of a call, each with what is called and its position or
    keyword. *)
Definition slots (c : expr) : list (string * slot * expr) :=
  match c with
  | ECall f args kws =>
    if is_literal c then []
    else (map (fun ia => (callee_text f, Pos (fst ia), snd ia)) (indexed args) ++
          map (fun kv => (callee_text f, Key (fst kv), snd kv)) kws)%list
  | _ => []
  end.

Definition argument_table : list (string * slot * expr) := flat_map slots call_sites.

Definition same_origin (a b : origin) : bool :=
  match a, b with
  | Literal, Literal | LiteralProduct, LiteralProduct
  | Object, Object | Local, Local | Computed, Computed => true
  | _, _ => false
  end.

(** The arguments of one origin, a name assigned once standing for what it
    was assigned. *)
Definition passed (o : origin) : list (string * slot * expr) :=
  map (fun t => (fst t, resolve (snd t)))
      (filter (fun t => same_origin (origin_of (snd t)) o) argument_table).

(** The arguments that are what a call returned, with the call. *)
Definition passed_objects : list (string * slot * string) :=
  map (fun t => (fst t, callee_text (snd t))) (passed Object).

(** *** Every effect of a run, and every recorded line *)

Definition dots (p : list string) : string := String.concat "." p.

(** What an event is: a command, an import, a function of a package, or a
    method. *)
Definition plain_name (ev : event) : string :=
  match ev with
  | Shell c => "!" ++ c
  | Import p => "import " ++ dots p
  | Call (VExt p) _ _ => dots p
  | Call (VMeth (VSuper _) m) _ _ => "super()." ++ m
  | Call (VMeth (VInst cn _) m) _ _ => cn ++ "()." ++ m
  | Call (VMeth _ m) _ _ => "()." ++ m
  | Call _ _ _ => "()"
  end.

(** The name of an effect in a run; the method of an object is named after
    the call that returned the object. *)
Definition effect_name (l : list event) (ev : event) : string :=
  match ev with
  | Call (VMeth (VObj h) m) _ _ =>
    match nth_error l h with
    | Some maker => plain_name maker ++ "()." ++ m
    | None => plain_name ev
    end
  | Call (VObj h) _ _ =>
    match nth_error l h with
    | Some maker => plain_name maker ++ "()()"
    | None => plain_name ev
    end
  | _ => plain_name ev
  end.

(** The strings among the arguments of the calls of a run, each with the
    call it is passed to. *)
Fixpoint strings_of (v : value) : list string :=
  match v with
  | VStr s => [s]
  | VList vs => flat_map strings_of vs
  | VDict kvs => flat_map (fun kv => match kv with (_, x) => strings_of x end) kvs
  | _ => []
  end.

Definition strings_passed (l : list event) : list (string * string) :=
  flat_map (fun ev =>
              match ev with
              | Call _ args kws =>
                map (fun s => (effect_name l ev, s))
                    (flat_map strings_of args ++
                     flat_map (fun kv => strings_of (snd kv)) kws)%list
              | _ => []
              end) l.

(** A line of the framework's logger: name, date, time of day, level. *)
Definition logger_line (l : string) : bool :=
  match time_of l with
  | Some _ => contains " INFO: " l || contains " WARNING: " l
  | None => false
  end.

(** A progress bar of an epoch. *)
Definition bar_line (l : string) : bool :=
  String.prefix "[Epoch " l && contains "%|" l && contains "it/s]" l.

Definition class_names : list string :=
  flat_map (fun s => match s with SClassDef n _ _ => [n] | _ => [] end)
           (code Notebook.cells).

Definition function_names : list string :=
  flat_map (fun s => match s with SFuncDef n _ _ => [n] | _ => [] end)
           (code Notebook.cells).

(** * Properties *)

(** ** The statements the notebook does not use *)

Example handler_swallows :
  run_code guarded_init [None; Some (Exn "RuntimeError" "no backend")] =
  (Ok tt, [Import ["colossalai"]; Call (VExt ["colossalai"; "init_dist"]) [] []]).
Proof. reflexivity. Qed.

Example loop_repeats :
  run_code two_attempts [] =
  (Ok tt, [ Import ["colossalai"];
            Call (VExt ["colossalai"; "init_dist"]) [] [];
            Call (VExt ["colossalai"; "init_dist"]) [] [] ]).
Proof. reflexivity. Qed.

Example condition_selects :
  run_code chosen_call [] =
  (Ok tt, [Import ["torch"]; Call (VExt ["torch"; "ones"]) [] []]).
Proof. reflexivity. Qed.

(** ** The run of the notebook, for every script *)

(** Case analysis on the first [n] entries of a script: once an entry raises,
    or the script ends, the run is closed and is computed. *)
Ltac by_script sc n :=
  lazymatch n with
  | O => vm_compute; reflexivity
  | S ?m =>
    let a := fresh "a" in
    destruct sc as [| a sc];
    [ vm_compute; reflexivity
    | destruct a; [ vm_compute; reflexivity | by_script sc m ] ]
  end.

(** A run goes through the events of the full run up to the first one its
    script makes raise, and ends with that exception, or normally. *)
Lemma run_replay (sc : script) : (result sc, events sc) = replay sc.
Proof.
  by_script sc 30.
Qed.

(** ** Every run is an initial part of the full run *)

Lemma events_prefix (sc : script) : exists m, events sc = firstn m full_trace.
Proof.
  pose proof (run_replay sc) as H. unfold replay in H.
  destruct (first_raise 0 (firstn (length full_trace) sc)) as [[k e]|];
    injection H as _ He; rewrite He.
  - now exists (S k).
  - exists (length full_trace). now rewrite firstn_all.
Qed.

Lemma events_ok (sc : script) : result sc = Ok tt -> events sc = full_trace.
Proof.
  pose proof (run_replay sc) as H. unfold replay in H.
  destruct (first_raise 0 (firstn (length full_trace) sc)) as [[k e]|];
    injection H as Hr He; intros R; rewrite R in Hr; congruence.
Qed.

Lemma nth_error_firstn_some {A} (l : list A) m n x :
  nth_error (firstn m l) n = Some x -> nth_error l n = Some x /\ n < m.
Proof.
  revert m n; induction l as [|a l IH]; intros [|m] [|n]; simpl; try discriminate.
  - intros H; split; [exact H | lia].
  - intros H. destruct (IH _ _ H). split; [assumption | lia].
Qed.

Lemma nth_error_firstn_lt {A} (l : list A) m n :
  n < m -> nth_error (firstn m l) n = nth_error l n.
Proof.
  revert m n; induction l as [|a l IH]; intros [|m] [|n]; simpl;
    try reflexivity; try lia.
  intros H. apply IH. lia.
Qed.

Lemma event_in_full (sc : script) n ev :
  nth_error (events sc) n = Some ev -> nth_error full_trace n = Some ev.
Proof.
  destruct (events_prefix sc) as [m ->]. intros H.
  now apply nth_error_firstn_some in H.
Qed.

(** Whatever was emitted before an event of a run is what the full run has there. *)
Lemma earlier_event (sc : script) n ev c :
  nth_error (events sc) n = Some ev -> c <= n ->
  nth_error (events sc) c = nth_error full_trace c.
Proof.
  destruct (events_prefix sc) as [m ->]. intros H L.
  apply nth_error_firstn_some in H. apply nth_error_firstn_lt. lia.
Qed.

Lemma nth_error_indexed_from {A} (l : list A) k n x :
  nth_error l n = Some x -> In (k + n, x) (combine (seq k (length l)) l).
Proof.
  revert k n; induction l as [|a l IH]; intros k [|n]; simpl; try discriminate.
  - intros [= ->]. left. f_equal. lia.
  - intros H. right. replace (k + S n) with (S k + n) by lia. now apply IH.
Qed.

Lemma event_found (p : event -> bool) (sc : script) n ev :
  nth_error (events sc) n = Some ev -> p ev = true ->
  In (n, ev) (filter (fun x => p (snd x)) (indexed full_trace)).
Proof.
  intros H Hp. apply filter_In. split; [| exact Hp].
  apply event_in_full in H. exact (nth_error_indexed_from _ 0 _ _ H).
Qed.

Lemma filter_firstn_length {A} (p : A -> bool) (l : list A) m :
  length (filter p (firstn m l)) <= length (filter p l).
Proof.
  revert m; induction l as [|a l IH]; intros [|m]; simpl; try lia.
  specialize (IH m). destruct (p a); simpl; lia.
Qed.

(** ** forward in a session *)

(** Case analysis on the first [n] entries of a script, [tac] closing each
    run. *)
Ltac script_cases sc n tac :=
  lazymatch n with
  | O => tac
  | S ?m =>
    let a := fresh "a" in
    destruct sc as [| a sc];
    [ tac | destruct a; [ tac | script_cases sc m tac ] ]
  end.

Lemma complete_run : snd (run []) = complete.
Proof. vm_compute. reflexivity. Qed.

Lemma complete_session : session [true; true; true; true; true; true; true] = complete.
Proof. vm_compute. reflexivity. Qed.

(** forward in a session that has run the imports and the model. *)
Lemma forward_run_replay (pip init data engine fit : bool) (x : value) (sc : script) :
  let s := session [pip; true; init; data; true; engine; fit] in
  (fst (forward_on s x sc), forward_events s x sc) = forward_replay s x sc.
Proof.
  destruct pip, init, data, engine, fit; by_script sc 12.
Qed.

(** forward binds no name and assigns no attribute. *)
Lemma forward_keeps_state (pip init data engine fit : bool) (x : value) (sc : script) :
  let s := session [pip; true; init; data; true; engine; fit] in
  globals (snd (forward_on s x sc)) = globals s /\
  heap (snd (forward_on s x sc)) = heap s.
Proof.
  destruct pip, init, data, engine, fit; split; by_script sc 12.
Qed.

(** ** C1: a single process *)

(** C1. In every run, whenever the distributed environment is initialised
    (an event of the run calls colossalai.init_dist), the call has
    world_size = 1 and its config is the object an earlier event of the same
    run made by Config(d), where d holds exactly the groups data, pipeline and
    tensor, each of size 1, with tensor mode None. *)
Theorem C1_single_process (sc : script) (n : nat) (ev : event) :
  nth_error (events sc) n = Some ev ->
  calls init_dist ev = true ->
  kwarg "world_size" ev = Some (VInt 1) /\
  exists c cfg,
    kwarg "config" ev = Some (VObj c) /\ c < n /\
    nth_error (events sc) c = Some (Call (VExt Config) [cfg] []) /\
    single_process cfg.
Proof.
  intros H Hc.
  pose proof (event_found _ _ _ _ H Hc) as F. vm_compute in F.
  destruct F as [F | []]. injection F as <- <-.
  split; [reflexivity |].
  eexists 6, _. split; [reflexivity |]. split; [lia |]. split.
  - rewrite (earlier_event _ _ _ 6 H) by lia. reflexivity.
  - repeat split.
Qed.

Lemma C1_single_process_witness :
  kwarg "world_size" (nth 7 (events []) (Shell "")) = Some (VInt 1) /\
  exists c cfg,
    kwarg "config" (nth 7 (events []) (Shell "")) = Some (VObj c) /\ c < 7 /\
    nth_error (events []) c = Some (Call (VExt Config) [cfg] []) /\
    single_process cfg.
Proof.
  apply (C1_single_process [] 7); reflexivity.
Defined.

(** ** C2: a fixed number of epochs *)

(** C2. The epoch count and the test interval are each assigned once, the
    literals 10 and 1.  In every run, a call of a method fit is a call on the
    object made by Trainer(...), with max_epochs = 10 and test_interval = 1;
    there is at most one such call, and exactly one when the run completes. *)
Theorem C2_fixed_epochs (sc : script) :
  assigned "num_epochs" Notebook.cells = [EInt 10] /\
  assigned "test_interval" Notebook.cells = [EInt 1] /\
  (forall n ev,
      nth_error (events sc) n = Some ev -> calls_method "fit" ev = true ->
      kwarg "max_epochs" ev = Some (VInt 10) /\
      kwarg "test_interval" ev = Some (VInt 1) /\
      exists t tr,
        receiver ev = Some (VObj t) /\
        nth_error (events sc) t = Some tr /\ calls Trainer tr = true) /\
  length (fit_calls sc) <= 1 /\
  (result sc = Ok tt -> length (fit_calls sc) = 1).
Proof.
  split; [reflexivity |]. split; [reflexivity |]. split; [| split].
  - intros n ev H Hc.
    pose proof (event_found _ _ _ _ H Hc) as F. vm_compute in F.
    destruct F as [F | []]. injection F as <- <-.
    split; [reflexivity |]. split; [reflexivity |].
    eexists 28, _. split; [reflexivity |]. split.
    + rewrite (earlier_event _ _ _ 28 H) by lia. reflexivity.
    + reflexivity.
  - unfold fit_calls. destruct (events_prefix sc) as [m ->].
    eapply Nat.le_trans; [apply filter_firstn_length | vm_compute; lia].
  - intros R. unfold fit_calls. rewrite (events_ok _ R). reflexivity.
Qed.

Lemma C2_fixed_epochs_witness :
  (kwarg "max_epochs" (nth 29 (events []) (Shell "")) = Some (VInt 10) /\
   kwarg "test_interval" (nth 29 (events []) (Shell "")) = Some (VInt 1)) /\
  length (fit_calls []) = 1.
Proof.
  destruct (C2_fixed_epochs []) as (_ & _ & A & _ & B). split.
  - destruct (A 29 (nth 29 (events []) (Shell "")) eq_refl eq_refl) as (H1 & H2 & _).
    now split.
  - apply B. reflexivity.
Defined.

(** ** C3: the shapes through the network *)

(** C3. For every batch size N, forward on a tensor of shape [N, 3, 32, 32]
    ends normally with a tensor of shape [N, 10].  The layers are those of
    __init__, fc1 taking 400 = 16 * 5 * 5 features; the tensors forward makes
    have, in order, the shapes listed: after the second pooling [N, 16, 5, 5],
    flattened to [N, 400]. *)
Theorem C3_forward_shape (N : nat) :
  Net_forward (images N) = Ok [Z.of_nat N; 10]%Z /\
  layers (world (snd (Net_forward_run (images N)))) =
    [ Torch.Conv2d 3 6 5; Torch.MaxPool2d 2 2; Torch.Conv2d 6 16 5;
      Torch.Linear (16 * 5 * 5) 120; Torch.Linear 120 84; Torch.Linear 84 10 ] /\
  tensor_shapes (world (snd (Net_forward_run (images N)))) =
    map (cons (Z.of_nat N))
        [ [3; 32; 32]; [6; 28; 28]; [6; 28; 28]; [6; 14; 14];
          [16; 10; 10]; [16; 10; 10]; [16; 5; 5]; [400];
          [120]; [120]; [84]; [84]; [10] ]%Z.
Proof.
  unfold images. generalize (Z.of_nat N) as n. intros n.
  repeat split; vm_compute; reflexivity.
Qed.

(** ** C4: straight-line code that calls into the packages *)

Lemma forallb_firstn {A} (p : A -> bool) (l : list A) m :
  forallb p l = true -> forallb p (firstn m l) = true.
Proof.
  revert m; induction l as [|a l IH]; intros [|m]; simpl; try reflexivity.
  intros H. apply andb_prop in H as [-> H]. now apply IH.
Qed.

(** C4. The code of the notebook has no if, while, for or try, and no
    conditional expression.  Every statement of it is a magic, an import, a
    call or a literal, assigned or evaluated, or the definition of the class
    Net; every statement of the two methods of Net, the only functions it
    defines, is a call, evaluated or assigned, or the return of a local name.
    No operator is applied to anything but integer literals (16 * 5 * 5): the
    notebook computes nothing of its own.  Its calls are the ones listed, in
    the order of the text: functions and classes of the packages by their
    names, methods of objects that the packages returned, the layers of self,
    and Net and super.  In every run every event goes to one of the packages
    and the events are an initial part of those of the full run, so that what
    a call returns or raises never selects another call and never repeats
    one; a run that completes goes through every step: initialisation,
    datasets and loaders, model, loss with optimizer and schedule, engine and
    trainer, and fit.  forward, applied to any value once the notebook has
    run, whatever its calls return or raise, only applies the layers of the
    network, relu and flatten, and what it returns is what its last call
    returned. *)
Theorem C4_straight_line_calls (sc : script) (x : value) (answers : script) :
  forallb straight_line (code Notebook.cells) = true /\
  forallb direct_step (code Notebook.cells) = true /\
  calls_made =
    [ "Config"; "colossalai.init_dist";
      "colossalai.nn.data.CIFAR10Dataset"; "torch.utils.data.DataLoader";
      "colossalai.nn.data.CIFAR10Dataset"; "torch.utils.data.DataLoader";
      "super().__init__"; "super";
      "nn.Conv2d"; "nn.MaxPool2d"; "nn.Conv2d"; "nn.Linear"; "nn.Linear"; "nn.Linear";
      "self.pool"; "F.relu"; "self.conv1"; "self.pool"; "F.relu"; "self.conv2";
      "torch.flatten"; "F.relu"; "self.fc1"; "F.relu"; "self.fc2"; "self.fc3";
      "Net().cuda"; "Net";
      "nn.CrossEntropyLoss"; "optim.SGD"; "model.parameters"; "NoPipelineSchedule";
      "Engine"; "Trainer"; "trainer.fit" ] /\
  defined_functions [] = ["Net.__init__"; "Net.forward"] /\
  forallb into_package (events sc) = true /\
  (exists m, events sc = firstn m full_trace) /\
  (result sc = Ok tt ->
   steps (events sc) =
     [ Init; Dataset; Dataset; Dataset; Dataset;
       Model; Model; Model; Model; Model; Model; Model; Model;
       Criterion; Criterion; Criterion; Criterion; Construct; Construct; Fit ]) /\
  forallb (layer_call complete) (forward_events complete x answers) = true /\
  (forall v,
      fst (forward_on complete x answers) = Ok v ->
      v = VObj (length full_trace + length (forward_events complete x answers) - 1)).
Proof.
  split; [reflexivity |]. split; [reflexivity |]. split; [reflexivity |].
  split; [reflexivity |]. split.
  { destruct (events_prefix sc) as [m ->]. now apply forallb_firstn. }
  split; [apply events_prefix |]. split.
  { intros R. rewrite (events_ok _ R). reflexivity. }
  pose proof (forward_run_replay true true true true true x answers) as R.
  cbv zeta in R. rewrite complete_session in R. unfold forward_replay in R.
  assert (L : forallb (layer_call complete) (forward_calls complete x) = true)
    by reflexivity.
  destruct (first_raise 0 (firstn 12 answers)) as [[k e] |].
  - assert (R1 : fst (forward_on complete x answers) = Raise e) by congruence.
    assert (R2 : forward_events complete x answers =
                 firstn (S k) (forward_calls complete x)) by congruence.
    split.
    + rewrite R2. now apply forallb_firstn.
    + intros v E. rewrite R1 in E. discriminate.
  - assert (R1 : fst (forward_on complete x answers) = Ok (VObj (length (trace complete) + 11)))
      by congruence.
    assert (R2 : forward_events complete x answers = forward_calls complete x)
      by congruence.
    split.
    + rewrite R2. exact L.
    + intros v E. rewrite R1 in E. injection E as <-. rewrite R2. reflexivity.
Qed.

(** ** C5: both splits, one transform configuration *)

(** C5. transform_cfg is assigned once.  In every run each construction of
    the dataset receives that same configuration, ToTensor then Normalize
    with the mean and std above, as its first argument, with root ./data; a
    run that completes constructs the dataset twice, first the training split
    (train = True) and then the test split (train = False). *)
Theorem C5_same_transform (sc : script) :
  length (assigned "transform_cfg" Notebook.cells) = 1 /\
  (forall n ev,
      nth_error (events sc) n = Some ev -> calls CIFAR10Dataset ev = true ->
      posarg 0 ev = Some transform_cfg /\ kwarg "root" ev = Some (VStr "./data")) /\
  (result sc = Ok tt ->
   map (kwarg "train") (dataset_calls sc) = [Some (VBool true); Some (VBool false)] /\
   map (posarg 0) (dataset_calls sc) = [Some transform_cfg; Some transform_cfg]).
Proof.
  split; [reflexivity |]. split.
  - intros n ev H Hc.
    pose proof (event_found _ _ _ _ H Hc) as F. vm_compute in F.
    destruct F as [F | [F | []]]; injection F as <- <-; split; reflexivity.
  - intros R. unfold dataset_calls. rewrite (events_ok _ R). split; reflexivity.
Qed.

Lemma C5_same_transform_witness :
  (posarg 0 (nth 10 (events []) (Shell "")) = Some transform_cfg /\
   kwarg "root" (nth 10 (events []) (Shell "")) = Some (VStr "./data")) /\
  map (kwarg "train") (dataset_calls []) = [Some (VBool true); Some (VBool false)] /\
  map (posarg 0) (dataset_calls []) = [Some transform_cfg; Some transform_cfg].
Proof.
  destruct (C5_same_transform []) as (_ & A & B). split.
  - apply (A 10); reflexivity.
  - apply B. reflexivity.
Defined.

(** ** C6: no exception handler *)

Lemma first_raise_at (sc : script) (L n k : nat) (e : exn) :
  k < L -> nth k sc None = Some e ->
  (forall j, j < k -> nth j sc None = None) ->
  first_raise n (firstn L sc) = Some (n + k, e).
Proof.
  revert L n k. induction sc as [|a sc IH]; intros L n k HL Hk Hb.
  - destruct k; discriminate.
  - destruct L as [|L]; [lia |]. destruct k as [|k]; simpl in *.
    + subst a. f_equal. f_equal. lia.
    + pose proof (Hb 0 ltac:(lia)) as H0. simpl in H0. subst a.
      replace (n + S k) with (S n + k) by lia. apply IH; [lia | assumption |].
      intros j Hj. apply (Hb (S j)). lia.
Qed.

Lemma first_raise_none (sc : script) (L n : nat) :
  (forall k, k < L -> nth k sc None = None) ->
  first_raise n (firstn L sc) = None.
Proof.
  revert L n. induction sc as [|a sc IH]; intros [|L] n H; try reflexivity.
  simpl. pose proof (H 0 ltac:(lia)) as H0. simpl in H0. subst a.
  apply IH. intros k Hk. apply (H (S k)). lia.
Qed.

(** C6. No statement of the notebook is a try.  When the [k]-th event of a
    run is the first that raises, and raises [e], the run ends with [e]
    itself, and that event is the last one: nothing is caught, replaced or
    attempted after it.  When no event raises, the run ends normally: the
    notebook raises nothing of its own. *)
Theorem C6_exceptions_propagate (sc : script) :
  forallb handler_free (code Notebook.cells) = true /\
  (forall k e,
      k < length full_trace ->
      nth k sc None = Some e ->
      (forall j, j < k -> nth j sc None = None) ->
      result sc = Raise e /\ events sc = firstn (S k) full_trace) /\
  ((forall k, k < length full_trace -> nth k sc None = None) ->
   result sc = Ok tt /\ events sc = full_trace).
Proof.
  split; [reflexivity |].
  pose proof (run_replay sc) as H. unfold replay in H. split.
  - intros k e HL Hk Hb.
    rewrite (first_raise_at sc _ 0 k e HL Hk Hb) in H.
    injection H as Hr He. now split.
  - intros Hn. rewrite (first_raise_none sc _ 0 Hn) in H.
    injection H as Hr He. now split.
Qed.

Lemma C6_exceptions_propagate_witness :
  (result download_fails = Raise (Exn "RuntimeError" "Dataset not found or corrupted") /\
   events download_fails = firstn 9 full_trace) /\
  (result [] = Ok tt /\ events [] = full_trace).
Proof.
  split.
  - apply (C6_exceptions_propagate download_fails) with (k := 8).
    + vm_compute. lia.
    + reflexivity.
    + intros j Hj. do 8 (destruct j as [|j]; [reflexivity |]). lia.
  - apply (C6_exceptions_propagate []).
    intros k _. now destruct k.
Defined.

(** ** C7: a fixed sequence of steps *)

Ltac split_in F :=
  repeat match type of F with
         | _ \/ _ => destruct F as [F | F]
         | False => destruct F
         end.

(** Where the events that satisfy [p] are, in any run. *)
Ltac locate H Hp :=
  let F := fresh "F" in
  pose proof (event_found _ _ _ _ H Hp) as F; vm_compute in F;
  split_in F; injection F as <- <-.

Lemma steps_in_order (sc : script) (p q : step) :
  match p, q with
  | Init, Dataset | Dataset, Model | Dataset, Construct | Model, Construct => True
  | _, _ => False
  end ->
  all_before (is_step p) (is_step q) (events sc).
Proof.
  intros O i j evi evj Hi Hj Hp Hq.
  destruct p, q; try contradiction; locate Hi Hp; locate Hj Hq; lia.
Qed.

(** C7 as the specification has it, with one external dependency, fails:
    the run imports colossalai and it imports torch. *)
Lemma C7_two_packages :
  ~ exists p, forall ev r, In ev (events []) -> package_of ev = Some r -> r = p.
Proof.
  intros [p H].
  assert (A : "colossalai" = p).
  { apply (H (Import ["colossalai"])); [vm_compute; tauto | reflexivity]. }
  assert (B : "torch" = p).
  { apply (H (Import ["torch"])); [vm_compute; tauto | reflexivity]. }
  congruence.
Qed.

(** C7, amended.  The notebook is a linear script against two packages,
    colossalai and torch.  The events of every run are an initial part of
    those of the full run; in every run the initialisation of the distributed
    environment comes before every construction of a dataset or loader, these
    before every event of the construction of the model and of engine and
    trainer, and the model before engine and trainer; a call of fit is the
    last event; every object an event uses was returned by an earlier call of
    the same run.  A run that completes goes through the steps in the order
    listed. *)
Theorem C7_fixed_sequence (sc : script) :
  (exists m, events sc = firstn m full_trace) /\
  (forall n ev r,
      nth_error (events sc) n = Some ev -> package_of ev = Some r ->
      r = "colossalai" \/ r = "torch") /\
  all_before (is_step Init) (is_step Dataset) (events sc) /\
  all_before (is_step Dataset) (is_step Model) (events sc) /\
  all_before (is_step Dataset) (is_step Construct) (events sc) /\
  all_before (is_step Model) (is_step Construct) (events sc) /\
  (forall n ev,
      nth_error (events sc) n = Some ev -> calls_method "fit" ev = true ->
      length (events sc) = S n) /\
  (forall n ev h,
      nth_error (events sc) n = Some ev -> In h (objects_used ev) ->
      h < n /\ exists p, nth_error (events sc) h = Some p /\ is_call_event p = true) /\
  (result sc = Ok tt ->
   steps (events sc) =
     [ Init; Dataset; Dataset; Dataset; Dataset;
       Model; Model; Model; Model; Model; Model; Model; Model;
       Criterion; Criterion; Criterion; Criterion; Construct; Construct; Fit ]).
Proof.
  split; [apply events_prefix |]. split.
  { intros n ev r H Hr. apply event_in_full in H.
    assert (W : forallb (fun ev => match package_of ev with
                                   | Some r => existsb (String.eqb r) packages
                                   | None => true
                                   end) full_trace = true) by reflexivity.
    rewrite forallb_forall in W. specialize (W ev (nth_error_In _ _ H)).
    rewrite Hr in W. simpl in W.
    destruct (String.eqb_spec r "colossalai"); [now left |].
    destruct (String.eqb_spec r "torch"); [now right | discriminate]. }
  split; [now apply steps_in_order |]. split; [now apply steps_in_order |].
  split; [now apply steps_in_order |]. split; [now apply steps_in_order |].
  split.
  { intros n ev H Hc.
    assert (L : n = 29) by (locate H Hc; reflexivity). subst n.
    destruct (events_prefix sc) as [m E]. rewrite E in *.
    apply nth_error_firstn_some in H as [_ Hm].
    rewrite length_firstn. vm_compute (length full_trace). lia. }
  split.
  { intros n ev h H Hh.
    assert (W : well_scoped full_trace = true) by reflexivity.
    unfold well_scoped in W. rewrite forallb_forall in W.
    pose proof (event_in_full _ _ _ H) as Hf.
    specialize (W (n, ev) (nth_error_indexed_from _ 0 _ _ Hf)). simpl in W.
    rewrite forallb_forall in W. specialize (W h Hh).
    apply andb_prop in W as [W1 W2]. apply Nat.ltb_lt in W1.
    split; [exact W1 |].
    rewrite (earlier_event _ _ _ h H) by lia.
    destruct (nth_error full_trace h) as [p |]; [| discriminate].
    now exists p. }
  intros R. rewrite (events_ok _ R). reflexivity.
Qed.

Lemma C7_fixed_sequence_witness :
  length (events []) = 30 /\
  (21 < 27 /\ exists p, nth_error (events []) 21 = Some p /\ is_call_event p = true) /\
  steps (events []) =
    [ Init; Dataset; Dataset; Dataset; Dataset;
      Model; Model; Model; Model; Model; Model; Model; Model;
      Criterion; Criterion; Criterion; Criterion; Construct; Construct; Fit ].
Proof.
  destruct (C7_fixed_sequence []) as (_ & _ & _ & _ & _ & _ & F & O & S).
  split; [| split].
  - apply (F 29 (nth 29 (events []) (Shell ""))); reflexivity.
  - apply (O 27 (nth 27 (events []) (Shell ""))); [reflexivity |].
    vm_compute. tauto.
  - apply S. reflexivity.
Defined.

(** ** C8: configuration written as literals *)

(** C8. The table of all 64 arguments of all calls of the notebook, a name
    assigned once standing for what it was assigned.  Each argument is of
    one of four kinds, and none is computed.  The literals are the 40
    listed: the parallel sizes, local rank, world size, host, port and
    backend, the transform list with its mean and std, root and train, batch
    size 128, shuffle, the number of workers, the sizes of the layers, the
    dimension of flatten, learning rate 0.001 and momentum 0.9, no learning
    rate scheduler, the hook types, verbose, epoch count 10, display_progress
    and test interval 1.  One is the product 16 * 5 * 5 of literals, the
    input size of fc1.  The objects are the 17 listed, each what a
    constructor or a method of a package, or Net().cuda(), returned, in the
    positions that take an object: the config, the datasets of the loaders,
    the parameters of the optimizer, the parts of the engine, the engine of
    the trainer, the loaders of fit, and the tensor between the layers of
    forward.  The other six are the tensor x inside forward.  The events of
    every run are an initial part of those of the full run, so the values
    passed do not depend on what the packages return. *)
Theorem C8_literal_configuration (sc : script) :
  length argument_table = 64 /\
  passed Computed = [] /\
  passed Literal =
    [ ("Config", Pos 0,
       Notebook.dict_ [ ("parallel",
         Notebook.dict_ [ ("data", Notebook.dict_ [("size", EInt 1)]);
                          ("pipeline", Notebook.dict_ [("size", EInt 1)]);
                          ("tensor", Notebook.dict_ [("size", EInt 1); ("mode", ENone)]) ]) ]);
      ("colossalai.init_dist", Key "local_rank", EInt 0);
      ("colossalai.init_dist", Key "world_size", EInt 1);
      ("colossalai.init_dist", Key "host", EStr "127.0.0.1");
      ("colossalai.init_dist", Key "port", EInt 8888);
      ("colossalai.init_dist", Key "backend", EStr "nccl");
      ("colossalai.nn.data.CIFAR10Dataset", Pos 0,
       EList [ Notebook.dict_ [("type", EStr "ToTensor")];
               Notebook.dict_ [ ("type", EStr "Normalize");
                                ("mean", EList [EFloat "0.4914"; EFloat "0.4822"; EFloat "0.4465"]);
                                ("std", EList [EFloat "0.2023"; EFloat "0.1994"; EFloat "0.2010"]) ] ]);
      ("colossalai.nn.data.CIFAR10Dataset", Key "root", EStr "./data");
      ("colossalai.nn.data.CIFAR10Dataset", Key "train", EBool true);
      ("torch.utils.data.DataLoader", Key "batch_size", EInt 128);
      ("torch.utils.data.DataLoader", Key "shuffle", EBool true);
      ("torch.utils.data.DataLoader", Key "num_workers", EInt 2);
      ("colossalai.nn.data.CIFAR10Dataset", Pos 0,
       EList [ Notebook.dict_ [("type", EStr "ToTensor")];
               Notebook.dict_ [ ("type", EStr "Normalize");
                                ("mean", EList [EFloat "0.4914"; EFloat "0.4822"; EFloat "0.4465"]);
                                ("std", EList [EFloat "0.2023"; EFloat "0.1994"; EFloat "0.2010"]) ] ]);
      ("colossalai.nn.data.CIFAR10Dataset", Key "root", EStr "./data");
      ("colossalai.nn.data.CIFAR10Dataset", Key "train", EBool false);
      ("torch.utils.data.DataLoader", Key "batch_size", EInt 128);
      ("torch.utils.data.DataLoader", Key "shuffle", EBool false);
      ("torch.utils.data.DataLoader", Key "num_workers", EInt 2);
      ("nn.Conv2d", Pos 0, EInt 3); ("nn.Conv2d", Pos 1, EInt 6); ("nn.Conv2d", Pos 2, EInt 5);
      ("nn.MaxPool2d", Pos 0, EInt 2); ("nn.MaxPool2d", Pos 1, EInt 2);
      ("nn.Conv2d", Pos 0, EInt 6); ("nn.Conv2d", Pos 1, EInt 16); ("nn.Conv2d", Pos 2, EInt 5);
      ("nn.Linear", Pos 1, EInt 120);
      ("nn.Linear", Pos 0, EInt 120); ("nn.Linear", Pos 1, EInt 84);
      ("nn.Linear", Pos 0, EInt 84); ("nn.Linear", Pos 1, EInt 10);
      ("torch.flatten", Pos 1, EInt 1);
      ("optim.SGD", Key "lr", EFloat "0.001");
      ("optim.SGD", Key "momentum", EFloat "0.9");
      ("Engine", Key "lr_scheduler", ENone);
      ("Trainer", Key "hooks_cfg",
       EList [ Notebook.dict_ [("type", EStr "LossHook")];
               Notebook.dict_ [("type", EStr "LogMetricByEpochHook")];
               Notebook.dict_ [("type", EStr "AccuracyHook")] ]);
      ("Trainer", Key "verbose", EBool true);
      ("trainer.fit", Key "max_epochs", EInt 10);
      ("trainer.fit", Key "display_progress", EBool true);
      ("trainer.fit", Key "test_interval", EInt 1) ] /\
  passed LiteralProduct =
    [ ("nn.Linear", Pos 0, EBinOp Mul (EBinOp Mul (EInt 16) (EInt 5)) (EInt 5)) ] /\
  passed_objects =
    [ ("colossalai.init_dist", Key "config", "Config()");
      ("torch.utils.data.DataLoader", Pos 0, "colossalai.nn.data.CIFAR10Dataset()");
      ("torch.utils.data.DataLoader", Pos 0, "colossalai.nn.data.CIFAR10Dataset()");
      ("self.pool", Pos 0, "F.relu()"); ("F.relu", Pos 0, "self.conv1()");
      ("self.pool", Pos 0, "F.relu()"); ("F.relu", Pos 0, "self.conv2()");
      ("F.relu", Pos 0, "self.fc1()"); ("F.relu", Pos 0, "self.fc2()");
      ("optim.SGD", Pos 0, "model.parameters()");
      ("Engine", Key "model", "Net().cuda()");
      ("Engine", Key "criterion", "nn.CrossEntropyLoss()");
      ("Engine", Key "optimizer", "optim.SGD()");
      ("Engine", Key "schedule", "NoPipelineSchedule()");
      ("Trainer", Key "engine", "Engine()");
      ("trainer.fit", Key "train_dataloader", "torch.utils.data.DataLoader()");
      ("trainer.fit", Key "test_dataloader", "torch.utils.data.DataLoader()") ] /\
  passed Local =
    [ ("self.conv1", Pos 0, EName "x"); ("self.conv2", Pos 0, EName "x");
      ("torch.flatten", Pos 0, EName "x"); ("self.fc1", Pos 0, EName "x");
      ("self.fc2", Pos 0, EName "x"); ("self.fc3", Pos 0, EName "x") ] /\
  exists m, events sc = firstn m full_trace.
Proof.
  do 6 (split; [vm_compute; reflexivity |]). apply events_prefix.
Qed.

(** ** C9: the order of the loaders *)

(** C9. In every run a DataLoader is constructed over a dataset made by an
    earlier event, with shuffle equal to that dataset's train flag.  In a run
    that completes, fit receives as train_dataloader a loader with
    shuffle = True and as test_dataloader a loader with shuffle = False: every
    pass of the test loader visits the samples in the one order 0, 1, ...,
    whatever is drawn, while two passes of the training loader can differ. *)
Theorem C9_loader_order (sc : script) :
  (forall n ev,
      nth_error (events sc) n = Some ev -> calls DataLoader ev = true ->
      exists d ds b,
        posarg 0 ev = Some (VObj d) /\
        nth_error (events sc) d = Some ds /\ calls CIFAR10Dataset ds = true /\
        kwarg "train" ds = Some (VBool b) /\ kwarg "shuffle" ev = Some (VBool b)) /\
  (result sc = Ok tt ->
   exists tr te,
     loader_of "train_dataloader" (events sc) = Some tr /\
     loader_of "test_dataloader" (events sc) = Some te /\
     calls DataLoader tr = true /\ calls DataLoader te = true /\
     shuffle_of tr = Some true /\ shuffle_of te = Some false /\
     (forall size d1 d2,
         loader_order te size d1 = Some (seq 0 size) /\
         loader_order te size d2 = loader_order te size d1) /\
     (exists size d1 d2,
         Permutation d1 (seq 0 size) /\ Permutation d2 (seq 0 size) /\
         loader_order tr size d1 <> loader_order tr size d2)).
Proof.
  split.
  - intros n ev H Hc. locate H Hc.
    + exists 8, (Call (VExt CIFAR10Dataset) [transform_cfg]
                      [("root", VStr "./data"); ("train", VBool true)]), true.
      split; [reflexivity |]. split.
      * rewrite (earlier_event _ _ _ 8 H) by lia. reflexivity.
      * repeat split.
    + exists 10, (Call (VExt CIFAR10Dataset) [transform_cfg]
                       [("root", VStr "./data"); ("train", VBool false)]), false.
      split; [reflexivity |]. split.
      * rewrite (earlier_event _ _ _ 10 H) by lia. reflexivity.
      * repeat split.
  - intros R. rewrite (events_ok _ R).
    eexists _, _. split; [reflexivity |]. split; [reflexivity |].
    split; [reflexivity |]. split; [reflexivity |].
    split; [reflexivity |]. split; [reflexivity |]. split.
    + intros size d1 d2. split; reflexivity.
    + exists 2, [0; 1], [1; 0]. split; [apply Permutation_refl |].
      split; [apply perm_swap |]. discriminate.
Qed.

Lemma C9_loader_order_witness :
  (exists d ds b,
      posarg 0 (nth 11 (events []) (Shell "")) = Some (VObj d) /\
      nth_error (events []) d = Some ds /\ calls CIFAR10Dataset ds = true /\
      kwarg "train" ds = Some (VBool b) /\
      kwarg "shuffle" (nth 11 (events []) (Shell "")) = Some (VBool b)) /\
  exists tr te,
    loader_of "train_dataloader" (events []) = Some tr /\
    loader_of "test_dataloader" (events []) = Some te /\
    calls DataLoader tr = true /\ calls DataLoader te = true /\
    shuffle_of tr = Some true /\ shuffle_of te = Some false /\
    (forall size d1 d2,
        loader_order te size d1 = Some (seq 0 size) /\
        loader_order te size d2 = loader_order te size d1) /\
    (exists size d1 d2,
        Permutation d1 (seq 0 size) /\ Permutation d2 (seq 0 size) /\
        loader_order tr size d1 <> loader_order tr size d2).
Proof.
  destruct (C9_loader_order []) as (A & B). split.
  - apply (A 11); reflexivity.
  - apply B. reflexivity.
Defined.

(** ** C10: what the notebook shows *)

(** C10 as the specification has it, with log lines and progress bars on
    standard output, fails: the recorded stream that holds them is standard
    error. *)
Lemma C10_log_on_stderr :
  ~ (forall s t,
        In (Stream s t) (outputs_of Notebook.cells) ->
        In log_line t \/ In progress_bar t -> s = Stdout).
Proof.
  intros H.
  specialize (H Stderr _ (or_intror (or_intror (or_intror (or_intror
                 (or_intror (or_intror (or_introl eq_refl)))))))).
  assert (E : Stderr = Stdout).
  { apply H. left. vm_compute. do 41 right. left. reflexivity. }
  discriminate.
Qed.

(** C10, amended.  Every recorded output of the notebook is a text stream.
    On standard error are the 30 lines of the framework's logger and its 21
    progress bars, and one more line, the end of a warning of torch; on
    standard output is no line of the logger and no progress bar, but the
    lines of the installer and the plain messages of the libraries: three
    notices at import, the framework's two messages on rank and seed, and
    the message of the dataset, twice.  The events of every run are an
    initial part of the 30 of the full run, which are the ones listed: the
    pip install, the imports, and the calls of the functions and methods of
    colossalai and torch named.  The strings handed to them are the eleven
    listed: an address and a backend for init_dist, the directory ./data and
    the names of the transforms for the datasets, the names of the hooks for
    the trainer; the code names no other file and no other address.  It calls
    by name only what it imported or received from a package, its class Net,
    and the builtins dict and super; it defines the class Net with its two
    methods and nothing else. *)
Theorem C10_visible_effects (sc : script) :
  map stream_of (outputs_of Notebook.cells) =
    [ Some Stdout; Some Stdout; Some Stderr; Some Stdout; Some Stdout;
      Some Stderr; Some Stderr ] /\
  filter (fun l => negb (logger_line l || bar_line l)) (lines_on Stderr Notebook.cells) =
    [ "  return torch.max_pool2d(input, kernel_size, stride, padding, dilation, ceil_mode)" ] /\
  length (filter logger_line (lines_on Stderr Notebook.cells)) = 30 /\
  length (filter bar_line (lines_on Stderr Notebook.cells)) = 21 /\
  filter (fun l => logger_line l || bar_line l) (lines_on Stdout Notebook.cells) = [] /\
  filter (fun l => negb (String.prefix "Requirement already satisfied: " l))
         (lines_on Stdout Notebook.cells) =
    [ "Please install apex to use FP16 Optimizer";
      "Apex should be installed to use the FP16 optimizer";
      "apex is required for mixed precision training";
      "process rank 0 is bound to device 0";
      "initialized seed on rank 0, numpy: 1024, python random: 1024, ParallelMode.DATA: 1024, ParallelMode.TENSOR: 1124,the default parallel seed is ParallelMode.DATA.";
      "Files already downloaded and verified";
      "Files already downloaded and verified" ] /\
  (exists m, events sc = firstn m full_trace) /\
  map (effect_name full_trace) full_trace =
    [ "!pip install ColossalAI deepspeed";
      "import colossalai"; "import colossalai.engine"; "import colossalai.trainer";
      "import colossalai.context"; "import torch";
      "colossalai.context.Config"; "colossalai.init_dist";
      "colossalai.nn.data.CIFAR10Dataset"; "torch.utils.data.DataLoader";
      "colossalai.nn.data.CIFAR10Dataset"; "torch.utils.data.DataLoader";
      "import torch.nn"; "import torch.nn.functional";
      "super().__init__";
      "torch.nn.Conv2d"; "torch.nn.MaxPool2d"; "torch.nn.Conv2d";
      "torch.nn.Linear"; "torch.nn.Linear"; "torch.nn.Linear";
      "Net().cuda";
      "import torch.optim"; "torch.nn.CrossEntropyLoss"; "Net().cuda().parameters";
      "torch.optim.SGD"; "colossalai.engine.NoPipelineSchedule";
      "colossalai.engine.Engine"; "colossalai.trainer.Trainer";
      "colossalai.trainer.Trainer().fit" ] /\
  strings_passed full_trace =
    [ ("colossalai.init_dist", "127.0.0.1"); ("colossalai.init_dist", "nccl");
      ("colossalai.nn.data.CIFAR10Dataset", "ToTensor");
      ("colossalai.nn.data.CIFAR10Dataset", "Normalize");
      ("colossalai.nn.data.CIFAR10Dataset", "./data");
      ("colossalai.nn.data.CIFAR10Dataset", "ToTensor");
      ("colossalai.nn.data.CIFAR10Dataset", "Normalize");
      ("colossalai.nn.data.CIFAR10Dataset", "./data");
      ("colossalai.trainer.Trainer", "LossHook");
      ("colossalai.trainer.Trainer", "LogMetricByEpochHook");
      ("colossalai.trainer.Trainer", "AccuracyHook") ] /\
  called_roots =
    [ "Config"; "colossalai"; "super"; "torch"; "F"; "self"; "Net"; "nn"; "optim";
      "model"; "NoPipelineSchedule"; "Engine"; "Trainer"; "dict"; "trainer" ] /\
  forallb known_name called_roots = true /\
  filter (fun r => existsb (String.eqb r) builtins) called_roots = ["super"; "dict"] /\
  class_names = ["Net"] /\
  function_names = [] /\
  defined_functions [] = ["Net.__init__"; "Net.forward"].
Proof.
  do 6 (split; [vm_compute; reflexivity |]).
  split; [apply events_prefix |].
  repeat split; vm_compute; reflexivity.
Qed.

(** * Beyond the runs of the notebook: the network, the engine, the cells *)

(** ** The two interpreters agree *)

Section ContinuationsAgree.
Context {W R : Type}.
Variable ext : W -> nat -> event -> W * (exn + value).

Lemma bind_assoc {A B} (m : M W A) (g : A -> M W B) (k : B -> M W R) (s : state W) :
  bind (bind m g) k s = bind m (fun a => bind (g a) k) s.
Proof. unfold bind. destruct (m s) as [[a | e | w |] s']; reflexivity. Qed.

Lemma bind_cong {A} (m : M W A) (k k' : A -> M W R) (s : state W) :
  (forall a s', k a s' = k' a s') -> bind m k s = bind m k' s.
Proof. intros H. unfold bind. destruct (m s) as [[a | e | w |] s']; auto. Qed.

Lemma emit_k_bind (ev : event) (k : value -> M W R) (s : state W) :
  emit_k ext ev k s = bind (emit ext ev) k s.
Proof.
  unfold emit_k, bind, emit.
  destruct (ext (world s) (length (trace s)) ev) as [w [e | v]]; reflexivity.
Qed.

Lemma mapM_k_bind {A B} (fk : A -> (B -> M W R) -> M W R) (f : A -> M W B) :
  (forall a k s, fk a k s = bind (f a) k s) ->
  forall l k s, mapM_k fk l k s = bind (mapM f l) k s.
Proof.
  intros H l. induction l as [| a l IH]; intros k s; simpl.
  - reflexivity.
  - rewrite H, bind_assoc. apply bind_cong. intros b s'.
    rewrite IH, bind_assoc. apply bind_cong. reflexivity.
Qed.

Lemma invoke_k_bind (rk : list stmt -> (option value -> M W R) -> M W R)
      (rb : list stmt -> M W (option value)) :
  (forall b k s, rk b k s = bind (rb b) k s) ->
  forall fd vs kvs k s, invoke_k rk fd vs kvs k s = bind (invoke rb fd vs kvs) k s.
Proof.
  intros H fd vs kvs k s. unfold invoke_k, invoke.
  destruct (bind_params (fn_params fd) vs kvs); [| reflexivity].
  rewrite bind_assoc. apply bind_cong. intros s0 s1.
  rewrite bind_assoc. apply bind_cong. intros _ s2.
  rewrite H, bind_assoc. apply bind_cong. intros r s3.
  rewrite bind_assoc. apply bind_cong. reflexivity.
Qed.

Lemma instantiate_k_bind (rk : list stmt -> (option value -> M W R) -> M W R)
      (rb : list stmt -> M W (option value)) :
  (forall b k s, rk b k s = bind (rb b) k s) ->
  forall cn vs kvs k s,
    instantiate_k ext rk cn vs kvs k s = bind (instantiate ext rb cn vs kvs) k s.
Proof.
  intros H cn vs kvs k s. unfold instantiate_k, instantiate.
  rewrite bind_assoc. apply bind_cong. intros s0 s1.
  destruct (lookup cn (classes s0)) as [cd |]; [| reflexivity].
  rewrite bind_assoc. apply bind_cong. intros o s2.
  destruct (lookup "__init__" (cd_methods cd)) as [fd |].
  - rewrite (invoke_k_bind rk rb H), bind_assoc. apply bind_cong. reflexivity.
  - destruct (cd_bases cd); [reflexivity |].
    rewrite emit_k_bind, bind_assoc. apply bind_cong. reflexivity.
Qed.

(** Each function of the interpreter in continuation-passing style is the
    function of the interpreter, followed by its continuation. *)
Lemma interp_k (f : nat) :
  (forall e (k : value -> M W R) s,
      eval_k ext f e k s = bind (eval ext f e) k s) /\
  (forall c vs kvs (k : value -> M W R) s,
      apply_k ext f c vs kvs k s = bind (apply ext f c vs kvs) k s) /\
  (forall st (k : option value -> M W R) s,
      exec_k ext f st k s = bind (exec ext f st) k s) /\
  (forall ss (k : option value -> M W R) s,
      exec_block_k ext f ss k s = bind (exec_block ext f ss) k s).
Proof.
  induction f as [| f (IHe & IHa & IHx & IHb)]; [repeat split; reflexivity |].
  assert (IHm : forall l (k : list value -> M W R) s,
             mapM_k (eval_k ext f) l k s = bind (mapM (eval ext f) l) k s)
    by (apply mapM_k_bind; exact IHe).
  repeat split.
  - intros e k s. destruct e; simpl; try reflexivity.
    + rewrite IHe, bind_assoc. reflexivity.
    + rewrite IHe, bind_assoc. apply bind_cong. intros c s1.
      rewrite IHm, bind_assoc. apply bind_cong. intros vs s2.
      rewrite (mapM_k_bind _ (fun ke => bind (eval ext f (snd ke)) (fun v => ret (fst ke, v)))).
      * rewrite bind_assoc. apply bind_cong. intros kvs s3. apply IHa.
      * intros a k0 s0. rewrite IHe, bind_assoc. apply bind_cong. reflexivity.
    + rewrite IHm, bind_assoc. apply bind_cong. reflexivity.
    + rewrite IHe, bind_assoc. apply bind_cong. intros a s1.
      rewrite IHe, bind_assoc. apply bind_cong. reflexivity.
    + rewrite IHe, bind_assoc. apply bind_cong. intros v s1.
      rewrite bind_assoc. apply bind_cong. intros b s2. destruct b; apply IHe.
  - intros c vs kvs k s. destruct c; simpl; try reflexivity; try apply emit_k_bind.
    + rewrite bind_assoc. apply bind_cong. intros s0 s1.
      destruct (lookup name (funcs s0)); [| reflexivity].
      apply (invoke_k_bind _ _ IHb).
    + apply (instantiate_k_bind _ _ IHb).
    + rewrite bind_assoc. apply bind_cong. intros s0 s1.
      destruct (lookup cls (classes s0)) as [cd |]; [| reflexivity].
      destruct (lookup name (cd_methods cd)); [| reflexivity].
      apply (invoke_k_bind _ _ IHb).
  - intros st k s. destruct st; simpl.
    + rewrite emit_k_bind, bind_assoc. apply bind_cong. reflexivity.
    + rewrite emit_k_bind, bind_assoc. apply bind_cong. intros _ s1.
      destruct alias; [| destruct module]; try reflexivity;
        rewrite bind_assoc; apply bind_cong; reflexivity.
    + rewrite emit_k_bind, bind_assoc. apply bind_cong. intros _ s1.
      rewrite bind_assoc. apply bind_cong. reflexivity.
    + rewrite IHe, bind_assoc. apply bind_cong. intros v s1.
      rewrite bind_assoc. apply bind_cong. reflexivity.
    + rewrite IHe, bind_assoc. apply bind_cong. intros v s1.
      rewrite IHe, bind_assoc. apply bind_cong. intros o s2.
      rewrite bind_assoc. apply bind_cong. reflexivity.
    + rewrite IHe, bind_assoc. apply bind_cong. reflexivity.
    + rewrite IHe, bind_assoc. apply bind_cong. reflexivity.
    + rewrite bind_assoc. apply bind_cong. intros _ s1.
      rewrite bind_assoc. apply bind_cong. reflexivity.
    + rewrite IHm, bind_assoc. apply bind_cong. intros bs s1.
      destruct (methods_of body); [| reflexivity].
      rewrite bind_assoc. apply bind_cong. intros _ s2.
      rewrite bind_assoc. apply bind_cong. reflexivity.
    + rewrite IHe, bind_assoc. apply bind_cong. intros v s1.
      rewrite bind_assoc. apply bind_cong. intros b s2. destruct b; apply IHb.
    + rewrite IHe, bind_assoc. apply bind_cong. intros v s1.
      rewrite bind_assoc. apply bind_cong. intros b s2. destruct b; [| reflexivity].
      rewrite IHb, bind_assoc. apply bind_cong. intros r s3.
      destruct r; [reflexivity | apply IHx].
    + rewrite IHe, bind_assoc. apply bind_cong. intros v s1.
      destruct v; try reflexivity.
      revert s1. induction vs as [| y l IHl]; intros s1; [reflexivity |].
      rewrite bind_assoc. apply bind_cong. intros _ s2.
      rewrite IHb, bind_assoc. apply bind_cong. intros r s3.
      destruct r; [reflexivity | apply IHl].
    + cbv beta delta [bind].
      destruct (exec_block ext f body s) as [[r | e | w |] s']; try reflexivity.
      destruct (handles exc e); [| reflexivity].
      simpl. rewrite IHb. unfold bind.
      destruct (exec_block ext f handler _) as [[r | e' | w |] s'']; reflexivity.
  - intros ss k s. destruct ss as [| st rest]; simpl; [reflexivity |].
    rewrite IHx, bind_assoc. apply bind_cong. intros r s1.
    destruct r; [reflexivity | apply IHb].
Qed.

End ContinuationsAgree.

Lemma bind_ret {W A} (m : M W A) (s : state W) : bind m ret s = m s.
Proof. unfold bind, ret. destruct (m s) as [[a | e | w |] s']; reflexivity. Qed.

Lemma apply_k_ret {W} (ext : W -> nat -> event -> W * (exn + value)) f c vs kvs s :
  apply ext f c vs kvs s = apply_k ext f c vs kvs ret s.
Proof. rewrite (proj1 (proj2 (interp_k ext f))). symmetry. apply bind_ret. Qed.

(** ** forward, for every shape *)

Lemma shapes_run_eq : run_cells Torch.shapes fuel Notebook.cells (initial []) = shapes_run.
Proof. vm_compute. reflexivity. Qed.

(** Running forward in the interpreter, whatever the shape of the input. *)
Lemma Net_forward_spec (x : list Z) :
  Net_forward x =
  match forward_shape x with
  | Some s => Ok s
  | None => Raise shape_mismatch
  end.
Proof.
  unfold Net_forward, Net_forward_run. rewrite shapes_run_eq. unfold shapes_run.
  cbv beta iota.
  match goal with |- context [lookup "model" ?g] =>
    let v := eval vm_compute in (lookup "model" g) in
    change (lookup "model" g) with v end.
  cbv beta iota.
  match goal with |- context [bind (getattr ?m ?a) ?k ?s] =>
    change (bind (getattr m a) k s) with (k (VUMeth m "Net" "forward") s) end.
  cbv beta. rewrite apply_k_ret.
  unfold forward_shape, and_then, relu_shape, shape_mismatch.
  cbv -[Torch.shapes Torch.layer_shape Torch.flatten].
  repeat
    (match goal with
     | |- context [Torch.shapes ?w ?n ?ev] =>
       lazymatch w with
       | context [Torch.shapes] => fail
       | _ =>
         let r := eval cbv -[Torch.layer_shape Torch.flatten] in (Torch.shapes w n ev) in
         change (Torch.shapes w n ev) with r
       end
     end;
     repeat match goal with
            | H : Torch.layer_shape ?l ?s = _ |- context [Torch.layer_shape ?l ?s] =>
              rewrite H
            | H : Torch.flatten ?s ?d = _ |- context [Torch.flatten ?s ?d] =>
              rewrite H
            end;
     try match goal with
         | |- context [match Torch.layer_shape ?l ?s with _ => _ end] =>
           destruct (Torch.layer_shape l s) eqn:?
         | |- context [match Torch.flatten ?s ?d with _ => _ end] =>
           destruct (Torch.flatten s d) eqn:?
         end;
     cbv -[Torch.shapes Torch.layer_shape Torch.flatten];
     try reflexivity).
Qed.

Lemma through_reduced (h : Z) : (16 <= h)%Z -> through h = reduced h.
Proof.
  intros H. unfold through, reduced, Torch.out_size.
  rewrite !Z.div_1_r. Z.div_mod_to_equations. lia.
Qed.

Lemma stages (h : Z) :
  ((5 <=? h) = true /\
   (0 <? Torch.out_size (Torch.out_size h 5 1 0 1) 2 2 0 1) = true /\
   (5 <=? Torch.out_size (Torch.out_size h 5 1 0 1) 2 2 0 1) = true /\
   (0 <? through h) = true)%Z <-> (16 <= h)%Z.
Proof.
  unfold through, Torch.out_size.
  rewrite ?Z.leb_le, ?Z.ltb_lt, !Z.div_1_r.
  split; [intros (A & B & C & D) | intros H]; Z.div_mod_to_equations; lia.
Qed.

Lemma forward_in_two (x : list Z) :
  forward_shape x = and_then (features_shape x) classifier_shape.
Proof.
  unfold forward_shape, features_shape, classifier_shape, and_then, relu_shape.
  cbv zeta.
  destruct (Torch.layer_shape (Torch.Conv2d 3 6 5) x) as [x1 |]; [| reflexivity].
  destruct (Torch.layer_shape (Torch.MaxPool2d 2 2) x1) as [x2 |]; reflexivity.
Qed.

Ltac conditions H :=
  repeat match type of H with
  | context [if ?b then _ else _] =>
    destruct b eqn:?; [| discriminate H]; cbv beta iota in H
  end.

Ltac split_conditions :=
  repeat match goal with
  | H : _ && _ = true |- _ => apply andb_prop in H; destruct H
  end.

Lemma features_batch (n c h w : Z) (r : list Z) :
  features_shape [n; c; h; w] = Some r <->
  (c = 3 /\ 16 <= h /\ 16 <= w)%Z /\ r = [n; 16; reduced h; reduced w]%Z.
Proof.
  unfold features_shape, and_then, relu_shape, Torch.layer_shape.
  cbv zeta. split.
  - intros H. conditions H. split_conditions.
    assert (Hh : (16 <= h)%Z) by (apply stages; auto).
    assert (Hw : (16 <= w)%Z) by (apply stages; auto).
    injection H as <-. fold (through h) (through w).
    rewrite !through_reduced by assumption.
    split; [| reflexivity]. split; [now apply Z.eqb_eq | split; assumption].
  - intros [(-> & Hh & Hw) ->].
    apply stages in Hh as (A1 & A2 & A3 & A4). apply stages in Hw as (B1 & B2 & B3 & B4).
    rewrite A1, B1. cbn [andb Z.eqb Pos.eqb]. cbv beta iota.
    rewrite A2, B2. cbn [andb Z.ltb Z.compare]. cbv beta iota.
    rewrite A3, B3. cbn [andb Z.eqb Pos.eqb]. cbv beta iota.
    fold (through h) (through w). rewrite A4, B4. cbn [andb Z.ltb Z.compare]. cbv beta iota.
    rewrite !through_reduced by (apply stages; auto). reflexivity.
Qed.

Lemma features_unbatched (c h w : Z) (r : list Z) :
  features_shape [c; h; w] = Some r <->
  (c = 3 /\ 16 <= h /\ 16 <= w)%Z /\ r = [16; reduced h; reduced w]%Z.
Proof.
  unfold features_shape, and_then, relu_shape, Torch.layer_shape.
  cbv zeta. split.
  - intros H. conditions H. split_conditions.
    assert (Hh : (16 <= h)%Z) by (apply stages; auto).
    assert (Hw : (16 <= w)%Z) by (apply stages; auto).
    injection H as <-. fold (through h) (through w).
    rewrite !through_reduced by assumption.
    split; [| reflexivity]. split; [now apply Z.eqb_eq | split; assumption].
  - intros [(-> & Hh & Hw) ->].
    apply stages in Hh as (A1 & A2 & A3 & A4). apply stages in Hw as (B1 & B2 & B3 & B4).
    rewrite A1, B1. cbn [andb Z.eqb Pos.eqb]. cbv beta iota.
    rewrite A2, B2. cbn [andb Z.ltb Z.compare]. cbv beta iota.
    rewrite A3, B3. cbn [andb Z.eqb Pos.eqb]. cbv beta iota.
    fold (through h) (through w). rewrite A4, B4. cbn [andb Z.ltb Z.compare]. cbv beta iota.
    rewrite !through_reduced by (apply stages; auto). reflexivity.
Qed.

Lemma features_rank (x r : list Z) :
  features_shape x = Some r ->
  (exists n c h w, x = [n; c; h; w]) \/ (exists c h w, x = [c; h; w]).
Proof.
  unfold features_shape, and_then, relu_shape.
  destruct x as [| n [| c [| h [| w [| d x]]]]]; simpl; try discriminate.
  - intros _. right. now exists n, c, h.
  - intros _. left. now exists n, c, h, w.
Qed.

(** The classifier takes [m] rows of 400 features in all. *)
Lemma classifier_3 (m a b : Z) (r : list Z) :
  classifier_shape [m; a; b] = Some r <-> (a * b = 400)%Z /\ r = [m; 10]%Z.
Proof.
  unfold classifier_shape, and_then, relu_shape, Torch.layer_shape, Torch.flatten.
  cbv zeta. change (16 * 5 * 5)%Z with 400%Z.
  cbn [length Nat.ltb Nat.leb firstn skipn fold_right app Torch.replace_last].
  split.
  - intros H. conditions H. injection H as <-.
    match goal with E : (_ =? 400)%Z = true |- _ => apply Z.eqb_eq in E end.
    split; [lia | reflexivity].
  - intros [E ->]. replace (a * (b * 1))%Z with 400%Z by lia. reflexivity.
Qed.

Lemma classifier_4 (n c a b : Z) (r : list Z) :
  classifier_shape [n; c; a; b] = Some r <-> (c * (a * b) = 400)%Z /\ r = [n; 10]%Z.
Proof.
  unfold classifier_shape, and_then, relu_shape, Torch.layer_shape, Torch.flatten.
  cbv zeta. change (16 * 5 * 5)%Z with 400%Z.
  cbn [length Nat.ltb Nat.leb firstn skipn fold_right app Torch.replace_last].
  split.
  - intros H. conditions H. injection H as <-.
    match goal with E : (_ =? 400)%Z = true |- _ => apply Z.eqb_eq in E end.
    split; [lia | reflexivity].
  - intros [E ->]. replace (c * (a * (b * 1)))%Z with 400%Z by lia. reflexivity.
Qed.

Lemma forward_batch (n c h w : Z) (r : list Z) :
  forward_shape [n; c; h; w] = Some r <->
  (c = 3 /\ 16 <= h /\ 16 <= w /\ reduced h * reduced w = 25)%Z /\ r = [n; 10]%Z.
Proof.
  rewrite forward_in_two. unfold and_then at 1.
  destruct (features_shape [n; c; h; w]) as [f |] eqn:F.
  - apply features_batch in F as [(-> & Hh & Hw) ->].
    rewrite classifier_4. split.
    + intros [E ->]. split; [| reflexivity]. repeat split; try assumption. lia.
    + intros [(_ & _ & _ & E) ->]. split; [lia | reflexivity].
  - split; [discriminate |]. intros [(-> & Hh & Hw & _) _].
    assert (S : features_shape [n; 3; h; w]%Z = Some [n; 16; reduced h; reduced w]%Z)
      by (apply features_batch; auto).
    congruence.
Qed.

Lemma forward_unbatched (c h w : Z) (r : list Z) :
  forward_shape [c; h; w] = Some r <->
  (c = 3 /\ 16 <= h /\ 16 <= w /\ reduced h * reduced w = 400)%Z /\ r = [16; 10]%Z.
Proof.
  rewrite forward_in_two. unfold and_then at 1.
  destruct (features_shape [c; h; w]) as [f |] eqn:F.
  - apply features_unbatched in F as [(-> & Hh & Hw) ->].
    rewrite classifier_3. split.
    + intros [E ->]. split; [| reflexivity]. repeat split; assumption.
    + intros [(_ & _ & _ & E) ->]. split; [assumption | reflexivity].
  - split; [discriminate |]. intros [(-> & Hh & Hw & _) _].
    assert (S : features_shape [3; h; w]%Z = Some [16; reduced h; reduced w]%Z)
      by (apply features_unbatched; auto).
    congruence.
Qed.

Lemma product_25 (a b : Z) :
  (0 < a)%Z -> (0 < b)%Z -> (a * b = 25)%Z ->
  (a = 1 /\ b = 25)%Z \/ (a = 5 /\ b = 5)%Z \/ (a = 25 /\ b = 1)%Z.
Proof.
  intros Ha Hb Hab.
  assert (Hle : (a <= 25)%Z) by nia.
  assert (Hn : exists k, a = Z.of_nat k /\ (k <= 25)%nat)
    by (exists (Z.to_nat a); lia).
  destruct Hn as [k [-> Hk]].
  do 26 (destruct k as [| k]; [lia |]). lia.
Qed.

Lemma accepted_size_reduced (h w : Z) :
  (16 <= h /\ 16 <= w /\ reduced h * reduced w = 25)%Z <-> accepted_size h w.
Proof.
  unfold accepted_size, reduced. split.
  - intros (Hh & Hw & E).
    apply product_25 in E; [| Z.div_mod_to_equations; lia | Z.div_mod_to_equations; lia].
    revert E. Z.div_mod_to_equations. lia.
  - intros H.
    assert (E : ((h - 12) / 4 = 5 /\ (w - 12) / 4 = 5)%Z \/
                ((h - 12) / 4 = 1 /\ (w - 12) / 4 = 25)%Z \/
                ((h - 12) / 4 = 25 /\ (w - 12) / 4 = 1)%Z)
      by (Z.div_mod_to_equations; lia).
    split; [lia |]. split; [lia |].
    destruct E as [[-> ->] | [[-> ->] | [-> ->]]]; reflexivity.
Qed.

(** X1. For every shape of the input, forward run by the interpreter gives
    what the layers give one after the other: conv1, pool, conv2, pool,
    flatten from dimension 1, fc1, fc2, fc3 (relu keeping the shape); it ends
    with the shape error exactly when one of them rejects its input, and in
    no other way. *)
Theorem X1_forward_composes (x : list Z) :
  Net_forward x =
  match forward_shape x with
  | Some s => Ok s
  | None => Raise shape_mismatch
  end.
Proof.
  apply Net_forward_spec.
Qed.

(** X2. On a batch of n >= 1 images, forward ends normally exactly when the
    images have three channels and a height and a width both from 32 to 35,
    or one from 16 to 19 and the other from 112 to 115; the result then has
    shape [n, 10]. *)
Theorem X2_forward_accepts (n c h w : Z) (r : list Z) :
  (0 < n)%Z ->
  (Net_forward [n; c; h; w] = Ok r <->
   c = 3%Z /\ accepted_size h w /\ r = [n; 10]%Z).
Proof.
  intros _. rewrite Net_forward_spec.
  destruct (forward_shape [n; c; h; w]) as [s |] eqn:F.
  - apply forward_batch in F as [(-> & Hh & Hw & E) ->].
    assert (A : accepted_size h w) by (apply accepted_size_reduced; auto).
    split; [intros [= <-]; auto | intros (_ & _ & ->); reflexivity].
  - split; [discriminate |]. intros (-> & A & ->).
    apply accepted_size_reduced in A as (Hh & Hw & E).
    assert (S : forward_shape [n; 3; h; w]%Z = Some [n; 10]%Z)
      by (apply forward_batch; auto).
    congruence.
Qed.

Lemma X2_forward_accepts_witness :
  Net_forward [128; 3; 32; 32]%Z = Ok [128; 10]%Z.
Proof.
  apply (X2_forward_accepts 128 3 32 32); [lia |].
  split; [reflexivity |]. split; [| reflexivity].
  left. lia.
Defined.

(** X3. On every other non-empty input that does not have three dimensions
    (a batch of images of another number of channels or of another size, such
    as 28 by 28, or an input of one, two, five or more dimensions) forward
    raises the shape error of the layer that rejects it. *)
Theorem X3_forward_rejects (x : list Z) :
  Forall (fun d => 0 < d)%Z x ->
  length x <> 3 ->
  (forall n h w, x = [n; 3; h; w]%Z -> ~ accepted_size h w) ->
  Net_forward x = Raise shape_mismatch.
Proof.
  intros _ L H. rewrite Net_forward_spec.
  destruct (forward_shape x) as [s |] eqn:E; [| reflexivity].
  assert (F : exists f, features_shape x = Some f).
  { rewrite forward_in_two in E. unfold and_then in E.
    destruct (features_shape x) as [f |]; [now exists f | discriminate]. }
  destruct F as [f F]. apply features_rank in F.
  destruct F as [(n & c & h & w & ->) | (c & h & w & ->)]; [| now destruct L].
  apply forward_batch in E as [(-> & Hh & Hw & P) _].
  destruct (H n h w eq_refl). apply accepted_size_reduced. auto.
Qed.

Lemma X3_forward_rejects_witness :
  Net_forward [64; 3; 28; 28]%Z = Raise shape_mismatch.
Proof.
  apply X3_forward_rejects.
  - repeat constructor.
  - discriminate.
  - intros n h w E. injection E as _ <- <-. unfold accepted_size. lia.
Defined.

(** X16. An input of three dimensions is one unbatched image (C, H, W), as
    the documentation of Conv2d and MaxPool2d has it.  forward ends normally
    on it exactly when it has three channels and a height and a width of 16
    or more with (H - 12) / 4 times (W - 12) / 4 equal to 400, as 92 by 92:
    flatten from dimension 1 then keeps the 16 channels apart, and the result
    has shape [16, 10]. *)
Theorem X16_forward_unbatched (c h w : Z) (r : list Z) :
  Net_forward [c; h; w] = Ok r <->
  c = 3%Z /\ accepted_unbatched h w /\ r = [16; 10]%Z.
Proof.
  rewrite Net_forward_spec. unfold accepted_unbatched.
  destruct (forward_shape [c; h; w]) as [s |] eqn:F.
  - apply forward_unbatched in F as [(-> & Hh & Hw & E) ->].
    split; [intros [= <-]; auto | intros (_ & _ & ->); reflexivity].
  - split; [discriminate |]. intros (-> & (Hh & Hw & E) & ->).
    assert (S : forward_shape [3; h; w]%Z = Some [16; 10]%Z)
      by (apply forward_unbatched; auto).
    congruence.
Qed.

Lemma X16_forward_unbatched_witness :
  Net_forward [3; 92; 92]%Z = Ok [16; 10]%Z.
Proof.
  apply X16_forward_unbatched.
  split; [reflexivity |]. split; [| reflexivity].
  unfold accepted_unbatched, reduced. repeat split; lia.
Defined.

(** ** forward, whatever the layers return *)

(** X4. In every session that has run the cell of the imports and the cell of
    the model, whatever other cells it has run, forward applied to any value,
    with no call failing, makes twelve calls and no other: conv1, relu, pool,
    conv2, relu, the same pool, flatten from dimension 1, fc1, relu, fc2,
    relu, fc3, the first on its argument and each of the others on what the
    call before it returned; it returns what fc3 returned, and leaves the
    names of the session and the attributes of the network as they were. *)
Theorem X4_forward_calls (pip init data engine fit : bool) (x : value) (sc : script) :
  let s := session [pip; true; init; data; true; engine; fit] in
  first_raise 0 (firstn 12 sc) = None ->
  forward_events s x sc = forward_calls s x /\
  fst (forward_on s x sc) = Ok (VObj (length (trace s) + 11)) /\
  globals (snd (forward_on s x sc)) = globals s /\
  heap (snd (forward_on s x sc)) = heap s.
Proof.
  intros s H. pose proof (forward_run_replay pip init data engine fit x sc) as R.
  fold s in R. unfold forward_replay in R. rewrite H in R. injection R as R1 R2.
  split; [exact R2 |]. split; [exact R1 |].
  apply (forward_keeps_state pip init data engine fit).
Qed.

Lemma X4_forward_calls_witness :
  forward_events complete (VStr "images") [] =
    [ Call (VObj 15) [VStr "images"] [];
      Call F_relu [VObj 30] [];
      Call (VObj 16) [VObj 31] [];
      Call (VObj 17) [VObj 32] [];
      Call F_relu [VObj 33] [];
      Call (VObj 16) [VObj 34] [];
      Call torch_flatten [VObj 35; VInt 1] [];
      Call (VObj 18) [VObj 36] [];
      Call F_relu [VObj 37] [];
      Call (VObj 19) [VObj 38] [];
      Call F_relu [VObj 39] [];
      Call (VObj 20) [VObj 40] [] ] /\
  fst (forward_on complete (VStr "images") []) = Ok (VObj 41).
Proof.
  destruct (X4_forward_calls true true true true true (VStr "images") [] eq_refl)
    as (A & B & _).
  split; [exact A | exact B].
Defined.

Lemma first_raise_bound (sc : script) (n k : nat) (e : exn) :
  first_raise n sc = Some (k, e) -> n <= k < n + length sc.
Proof.
  revert n. induction sc as [| a sc IH]; intros n; simpl; [discriminate |].
  destruct a as [e' |].
  - intros [= <- _]. lia.
  - intros H. apply IH in H. lia.
Qed.

(** X5. In such a session, when a call of forward fails, forward ends with
    the exception of that call, unchanged, and the call is its last: the
    layers after it are not applied. *)
Theorem X5_forward_stops (pip init data engine fit : bool) (x : value) (sc : script)
        (k : nat) (e : exn) :
  let s := session [pip; true; init; data; true; engine; fit] in
  first_raise 0 (firstn 12 sc) = Some (k, e) ->
  fst (forward_on s x sc) = Raise e /\
  forward_events s x sc = firstn (S k) (forward_calls s x) /\
  length (forward_events s x sc) = S k.
Proof.
  intros s H. pose proof (forward_run_replay pip init data engine fit x sc) as R.
  fold s in R. unfold forward_replay in R. rewrite H in R.
  assert (R1 : fst (forward_on s x sc) = Raise e) by congruence.
  assert (R2 : forward_events s x sc = firstn (S k) (forward_calls s x)) by congruence.
  split; [exact R1 |]. split; [exact R2 |].
  apply first_raise_bound in H. rewrite length_firstn in H.
  rewrite R2, length_firstn. change (length (forward_calls s x)) with 12. lia.
Qed.

Lemma X5_forward_stops_witness :
  fst (forward_on complete VNone
         [None; None; None; Some (Exn "RuntimeError" "out of memory")]) =
    Raise (Exn "RuntimeError" "out of memory") /\
  length (forward_events complete VNone
            [None; None; None; Some (Exn "RuntimeError" "out of memory")]) = 4.
Proof.
  destruct (X5_forward_stops true true true true true VNone
              [None; None; None; Some (Exn "RuntimeError" "out of memory")]
              3 (Exn "RuntimeError" "out of memory") eq_refl) as (A & _ & B).
  split; [exact A | exact B].
Defined.

(** X6. The cell of the model runs without the cell of the imports, but
    forward does not: it reads torch, which only that cell binds.  In a
    session that has run the model and not the imports, forward applied to
    any value makes its first six calls (conv1, relu, pool, conv2, relu,
    pool) and then ends with a NameError for torch, when none of them
    fails. *)
Theorem X6_forward_needs_imports (pip engine fit : bool) (x : value) (sc : script) :
  let s := session [pip; false; false; false; true; engine; fit] in
  first_raise 0 (firstn 6 sc) = None ->
  fst (forward_on s x sc) = Raise (Exn "NameError" "torch") /\
  forward_events s x sc = firstn 6 (forward_calls s x).
Proof.
  intros s H. subst s.
  destruct pip, engine, fit;
    script_cases sc 6
      ltac:(first [ discriminate H | vm_compute; split; reflexivity ]).
Qed.

Lemma X6_forward_needs_imports_witness :
  fst (forward_on (session [false; false; false; false; true; false; false]) VNone []) =
    Raise (Exn "NameError" "torch") /\
  length (forward_events (session [false; false; false; false; true; false; false])
            VNone []) = 6.
Proof.
  destruct (X6_forward_needs_imports false false false VNone [] eq_refl) as (A & B).
  split; [exact A | rewrite B; reflexivity].
Defined.

(** ** The construction of the network *)

(** X7. In every run in which the imports and calls up to the last layer
    succeed, Net() calls super().__init__() first and then the constructors
    Conv2d(3, 6, 5), MaxPool2d(2, 2), Conv2d(6, 16, 5), Linear(400, 120),
    Linear(120, 84), Linear(84, 10), in this order and no other call between
    them; self.conv1, self.pool, self.conv2, self.fc1, self.fc2 and self.fc3
    then hold what these calls returned, each its own, and these six are the
    attributes that the code of the notebook assigns (what the base class
    keeps in the instance of its own accord is not the notebook's).  The call
    after them, when the run makes it, is .cuda() on that instance. *)
Theorem X7_layers_built (sc : script) :
  first_raise 0 (firstn 21 sc) = None ->
  firstn 7 (skipn 14 (events sc)) = super_init :: map snd Net_layers /\
  map (fun ae => held (snd (run sc)) (fst ae)) Net_layers =
    map (fun ae => Some (snd ae)) Net_layers /\
  flat_map attribute_targets (code Notebook.cells) = map fst Net_layers /\
  (forall ev, nth_error (events sc) 21 = Some ev -> ev = Call (VMeth net "cuda") [] []).
Proof.
  intros H.
  script_cases sc 30
    ltac:(first [ discriminate H
                | vm_compute; split; [reflexivity |]; split; [reflexivity |];
                  split; [reflexivity |];
                  intros ev E; first [discriminate E | injection E as <-; reflexivity] ]).
Qed.

Lemma X7_layers_built_witness :
  firstn 7 (skipn 14 (events [])) = super_init :: map snd Net_layers /\
  map (fun ae => held (snd (run [])) (fst ae)) Net_layers =
    map (fun ae => Some (snd ae)) Net_layers.
Proof.
  destruct (X7_layers_built [] eq_refl) as (A & B & _).
  split; [exact A | exact B].
Defined.

(** ** A second network *)

(** X8. Net() called once more, in a session that has run the imports and
    the model, makes a second instance with six layers of its own: the same
    constructors are called again, in the same order after super().__init__(),
    every layer of the new network is an object made during this call, and
    the first network keeps its attributes; no name of the session is
    rebound. *)
Theorem X8_second_network (pip init data engine fit : bool) (sc : script) :
  let s := session [pip; true; init; data; true; engine; fit] in
  let r := construct_on s sc in
  first_raise 0 (firstn 7 sc) = None ->
  fst r = Ok (VInst "Net" 1) /\
  skipn (length (trace s)) (trace (snd r)) =
    Call (VMeth (VSuper (VInst "Net" 1)) "__init__") [] [] :: map snd Net_layers /\
  layers_of (snd r) 1 = map (fun ae => (fst ae, Some (snd ae))) Net_layers /\
  forallb (fun h => Nat.leb (length (trace s)) h) (handles_of (snd r) 1) = true /\
  forallb (fun h => Nat.ltb h (length (trace s))) (handles_of (snd r) 0) = true /\
  attributes 0 (heap (snd r)) = attributes 0 (heap s) /\
  globals (snd r) = globals s.
Proof.
  intros s r H. subst r s.
  destruct pip, init, data, engine, fit;
    script_cases sc 7
      ltac:(first [ discriminate H | vm_compute; repeat split ]).
Qed.

Lemma X8_second_network_witness :
  fst (construct_on complete []) = Ok (VInst "Net" 1) /\
  handles_of (snd (construct_on complete [])) 1 = [31; 32; 33; 34; 35; 36] /\
  handles_of (snd (construct_on complete [])) 0 = [15; 16; 17; 18; 19; 20].
Proof.
  destruct (X8_second_network true true true true true [] eq_refl) as (A & _).
  split; [exact A | split; reflexivity].
Defined.

(** ** Loss, optimizer, engine and trainer *)

(** X9. In every run, the engine is built from the objects the notebook made
    just before: its model is what .cuda() returned for the network, its
    criterion what CrossEntropyLoss() returned, its optimizer the object of
    SGD(p, lr=0.001, momentum=0.9) where p is what parameters() returned for
    that same model, its schedule what NoPipelineSchedule() returned, and its
    lr_scheduler is None. *)
Theorem X9_engine_wiring (sc : script) (n : nat) (ev : event) :
  nth_error (events sc) n = Some ev ->
  calls Engine ev = true ->
  exists m p,
    kwarg "model" ev = Some (VObj m) /\
    made_by (events sc) (VObj m) = Some (Call (VMeth net "cuda") [] []) /\
    option_map (made_by (events sc)) (kwarg "criterion" ev) =
      Some (Some (Call (VExt CrossEntropyLoss) [] [])) /\
    option_map (made_by (events sc)) (kwarg "optimizer" ev) =
      Some (Some (Call (VExt SGD) [VObj p]
                       [("lr", VFloat "0.001"); ("momentum", VFloat "0.9")])) /\
    made_by (events sc) (VObj p) = Some (Call (VMeth (VObj m) "parameters") [] []) /\
    option_map (made_by (events sc)) (kwarg "schedule" ev) =
      Some (Some (Call (VExt NoPipelineSchedule) [] [])) /\
    kwarg "lr_scheduler" ev = Some VNone /\
    m < p /\ p < n.
Proof.
  intros H Hc. locate H Hc.
  assert (E : forall c, c <= 27 -> nth_error (events sc) c = nth_error full_trace c)
    by (intros c L; exact (earlier_event _ _ _ c H L)).
  exists 21, 24. simpl kwarg. unfold option_map, made_by.
  rewrite !E by lia.
  repeat split; lia.
Qed.

Lemma X9_engine_wiring_witness :
  exists m p,
    kwarg "model" (nth 27 (events []) (Shell "")) = Some (VObj m) /\
    made_by (events []) (VObj m) = Some (Call (VMeth net "cuda") [] []) /\
    made_by (events []) (VObj p) = Some (Call (VMeth (VObj m) "parameters") [] []).
Proof.
  destruct (X9_engine_wiring [] 27 (nth 27 (events []) (Shell "")) eq_refl eq_refl)
    as (m & p & A & B & _ & _ & C & _).
  exists m, p. split; [exact A |]. split; [exact B | exact C].
Defined.

(** X10. In every run, the trainer is built on the engine made before it, with
    the hooks LossHook, LogMetricByEpochHook and AccuracyHook, in this order,
    and verbose; fit, when the run reaches it, is called on that trainer with
    the loader of the training set as train_dataloader and the loader of the
    test set as test_dataloader, and with display_progress. *)
Theorem X10_trainer_wiring (sc : script) (n : nat) (ev : event) :
  nth_error (events sc) n = Some ev ->
  calls_method "fit" ev = true ->
  exists t tr e tl vl trainset testset,
    receiver ev = Some (VObj t) /\
    nth_error (events sc) t = Some tr /\ calls Trainer tr = true /\
    kwarg "engine" tr = Some (VObj e) /\
    option_map (calls Engine) (nth_error (events sc) e) = Some true /\
    kwarg "hooks_cfg" tr = Some hooks_cfg /\
    kwarg "verbose" tr = Some (VBool true) /\
    kwarg "display_progress" ev = Some (VBool true) /\
    option_map (made_by (events sc)) (kwarg "train_dataloader" ev) = Some (Some tl) /\
    calls DataLoader tl = true /\ posarg 0 tl = Some (VObj trainset) /\
    option_map (kwarg "train") (nth_error (events sc) trainset) = Some (Some (VBool true)) /\
    option_map (made_by (events sc)) (kwarg "test_dataloader" ev) = Some (Some vl) /\
    calls DataLoader vl = true /\ posarg 0 vl = Some (VObj testset) /\
    option_map (kwarg "train") (nth_error (events sc) testset) = Some (Some (VBool false)).
Proof.
  intros H Hc. locate H Hc.
  assert (E : forall c, c <= 29 -> nth_error (events sc) c = nth_error full_trace c)
    by (intros c L; exact (earlier_event _ _ _ c H L)).
  eexists 28, _, 27, _, _, 8, 10. simpl kwarg. simpl receiver.
  unfold option_map, made_by. rewrite !E by lia.
  repeat split.
Qed.

Lemma X10_trainer_wiring_witness :
  exists t tr, receiver (nth 29 (events []) (Shell "")) = Some (VObj t) /\
               nth_error (events []) t = Some tr /\
               kwarg "hooks_cfg" tr = Some hooks_cfg.
Proof.
  destruct (X10_trainer_wiring [] 29 (nth 29 (events []) (Shell "")) eq_refl eq_refl)
    as (t & tr & e & tl & vl & a & b & A & B & _ & _ & _ & C & _).
  exists t, tr. split; [exact A |]. split; [exact B | exact C].
Defined.

(** ** Training and test data side by side *)

(** X11. In every run, the datasets are constructed alike but for train: any
    two calls of CIFAR10Dataset have the same transform and the same root,
    './data'.  The loaders are constructed alike but for their dataset and
    shuffle: any two calls of DataLoader have the same batch size, 128, and
    the same number of workers, 2, and nothing else. *)
Theorem X11_train_test_parity (sc : script) (i j : nat) (a b : event) :
  nth_error (events sc) i = Some a ->
  nth_error (events sc) j = Some b ->
  (calls CIFAR10Dataset a = true -> calls CIFAR10Dataset b = true ->
   without "train" a = without "train" b /\
   kwarg "root" a = Some (VStr "./data") /\
   posarg 0 a = Some transform_cfg) /\
  (calls DataLoader a = true -> calls DataLoader b = true ->
   keywords_only (without "shuffle" a) = keywords_only (without "shuffle" b) /\
   keywords_only (without "shuffle" a) =
     Call (VExt DataLoader) [] [("batch_size", VInt 128); ("num_workers", VInt 2)]).
Proof.
  intros Ha Hb. split; intros Ca Cb; locate Ha Ca; locate Hb Cb; repeat split.
Qed.

Lemma X11_train_test_parity_witness :
  without "train" (nth 8 (events []) (Shell "")) =
  without "train" (nth 10 (events []) (Shell "")).
Proof.
  destruct (X11_train_test_parity [] 8 10 (nth 8 (events []) (Shell ""))
              (nth 10 (events []) (Shell "")) eq_refl eq_refl) as [A _].
  exact (proj1 (A eq_refl eq_refl)).
Defined.

(** ** What a run that fails leaves behind *)

Ltac find_index n k :=
  lazymatch k with
  | O => fail "no index"
  | S ?k' => first [ exists n; vm_compute; reflexivity | find_index (S n) k' ]
  end.

Lemma globals_suffix (sc : script) :
  exists n, globals (snd (run sc)) = skipn n (globals complete).
Proof.
  script_cases sc 30 ltac:(idtac; find_index 0 26).
Qed.

Lemma attributes_prefix (sc : script) :
  exists m, attributes 0 (heap (snd (run sc))) = firstn m (attributes 0 (heap complete)).
Proof.
  script_cases sc 30 ltac:(idtac; find_index 0 7).
Qed.

Lemma globals_complete (sc : script) :
  result sc = Ok tt -> globals (snd (run sc)) = globals complete.
Proof.
  intros R. pose proof (run_replay sc) as H. unfold replay in H.
  destruct (first_raise 0 (firstn (length full_trace) sc)) as [[k e] |] eqn:F;
    injection H as Hr _; [congruence |]. clear Hr R.
  revert F.
  script_cases sc 30 ltac:(first [ discriminate | intros _; vm_compute; reflexivity ]).
Qed.

Lemma lookup_in {A} (x : string) (l : list (string * A)) (v : A) :
  lookup x l = Some v -> In x (map fst l).
Proof.
  induction l as [| [y w] l IH]; simpl; [discriminate |].
  destruct (String.eqb x y) eqn:E.
  - apply String.eqb_eq in E. intros _. left. now symmetry.
  - intros H. right. now apply IH.
Qed.

Lemma lookup_skipn {A} (x : string) (l : list (string * A)) (n : nat) (v : A) :
  NoDup (map fst l) -> lookup x (skipn n l) = Some v -> lookup x l = Some v.
Proof.
  revert l. induction n as [| n IH]; intros l; [easy |].
  destruct l as [| [y w] l]; [easy |]. simpl. intros ND H.
  inversion ND as [| ? ? Hy ND']; subst.
  destruct (String.eqb x y) eqn:E.
  - apply String.eqb_eq in E. subst y.
    apply IH in H; [| assumption]. apply lookup_in in H. contradiction.
  - now apply IH.
Qed.

Lemma complete_names : NoDup (map fst (globals complete)).
Proof.
  vm_compute.
  repeat (constructor; [simpl; intuition discriminate |]). constructor.
Qed.

(** X12. Whatever fails, a run leaves the state an initial part of what the
    complete run builds: the names it has bound are the first names the
    complete run binds, with the same values, each name being bound once; the
    attributes of the network are the first the complete run assigns.  So a
    name that is bound after a failure holds what it holds when nothing fails,
    and a run that ends normally has bound every name. *)
Theorem X12_partial_state (sc : script) :
  (exists n, globals (snd (run sc)) = skipn n (globals complete)) /\
  NoDup (map fst (globals complete)) /\
  (forall x v, lookup x (globals (snd (run sc))) = Some v ->
               lookup x (globals complete) = Some v) /\
  (exists m, attributes 0 (heap (snd (run sc))) =
             firstn m (attributes 0 (heap complete))) /\
  (result sc = Ok tt -> globals (snd (run sc)) = globals complete).
Proof.
  split; [apply globals_suffix |]. split; [apply complete_names |].
  split; [| split; [apply attributes_prefix | apply globals_complete]].
  intros x v. destruct (globals_suffix sc) as [n ->].
  apply lookup_skipn, complete_names.
Qed.

(** ** Cells run on their own *)

Ltac selection_cases sc n :=
  lazymatch n with
  | O => left; vm_compute; reflexivity
  | S ?m =>
    let e := fresh "e" in
    destruct sc as [| [e |] sc];
    [ left; vm_compute; reflexivity
    | first [ left; vm_compute; reflexivity
            | right; exists e; split;
              [ simpl; repeat first [ left; reflexivity | right ]
              | vm_compute; reflexivity ] ]
    | selection_cases sc m ]
  end.

Ltac never_ok sc n :=
  lazymatch n with
  | O => vm_compute; discriminate
  | S ?m =>
    destruct sc as [| [? |] sc];
    [ vm_compute; discriminate | vm_compute; discriminate | never_ok sc m ]
  end.

(** X13. Any of the code cells can be left out.  The cells that are run, in
    order, can end normally only when the selection has, for each cell, the
    cells it takes names from: the imports for initialisation and for the
    datasets, the imports and the model for the engine (nn comes from the
    cell of the model), the datasets and the engine for fit; the cell of the
    model and the installation need nothing.  Such a selection ends normally
    when no package fails, and otherwise with the exception of a package.
    Any other selection ends, when no package fails, with a NameError for a
    name that a cell left out would have bound, and never ends normally. *)
Theorem X13_cell_dependencies (pip imports init data model engine fit : bool)
        (sc : script) :
  let keep := [pip; imports; init; data; model; engine; fit] in
  if closed imports init data model engine fit
  then run_selected [] keep = Ok tt /\
       (run_selected sc keep = Ok tt \/ package_failure sc (run_selected sc keep))
  else (exists x, run_selected [] keep = Raise (Exn "NameError" x) /\
                  In x (left_out keep)) /\
       run_selected sc keep <> Ok tt.
Proof.
  unfold package_failure.
  destruct pip, imports, init, data, model, engine, fit;
    cbv beta iota zeta delta [closed implb andb]; (split;
    [ vm_compute;
      first [ reflexivity
            | eexists; split; [reflexivity |];
              repeat first [ left; reflexivity | right ] ]
    | first [ selection_cases sc 30 | never_ok sc 30 ] ]).
Qed.

(** ** The recorded log and the code *)

(** X14. The log recorded under the last cell is that of the code above it:
    with n the number assigned to num_epochs and b the one assigned to
    batch_size, it has, for each epoch from 0 to n - 1 in order, a finished
    bar of training over ceil(50000 / b) batches and one of validation over
    ceil(10000 / b) batches, and a line of the logger for training and one
    for testing, numbered from 1 to n: a test after every epoch, as
    test_interval = 1 asks. *)
Theorem X14_recorded_epochs :
  exists (n : nat) (b : Z),
    assigned "num_epochs" Notebook.cells = [EInt (Z.of_nat n)] /\
    assigned "batch_size" Notebook.cells = [EInt b] /\
    assigned "test_interval" Notebook.cells = [EInt 1] /\
    flat_map epoch_logged recorded_log =
      flat_map (fun e => fst (epoch_lines b e)) (seq 0 n) /\
    flat_map bar_finished recorded_log =
      flat_map (fun e => snd (epoch_lines b e)) (seq 0 n).
Proof.
  exists 10, 128%Z. repeat split; vm_compute; reflexivity.
Qed.

(** X15. The other recorded outputs are those of the code as well: the
    trainer reports one hook built for each entry of hooks_cfg, the same
    three; the cell of the datasets prints its message once for each of the
    two datasets a complete run constructs; and the times of the 30 lines of
    the logger never go back from one line to the next, through the cells in
    their order: the outputs are those of one run from top to bottom. *)
Theorem X15_recorded_outputs :
  Permutation (hooks_built recorded_log) (hook_types hooks_cfg) /\
  count_lines "Files already downloaded and verified" (lines_on Stdout Notebook.cells) =
    length (dataset_calls []) /\
  length (times recorded_log) =
    length (filter (String.prefix "colossalai - ") recorded_log) /\
  length (times recorded_log) = 30 /\
  ascending (times recorded_log) = true.
Proof.
  split.
  - change (Permutation ["LogMetricByEpochHook"; "LossHook"; "AccuracyHook"]
                        ["LossHook"; "LogMetricByEpochHook"; "AccuracyHook"]).
    apply perm_swap.
  - repeat split; vm_compute; reflexivity.
Qed.
